(** * check_wintask: a shallow embedding of the scheduled-task check plugin

    The plugin (src/check_wintask.py) fetches the textual output of a
    PowerShell query over SSH, cuts it into per-task dictionaries
    ([get_windows_task]), classifies every selected task
    ([check_task_details]) and prints the collected lines grouped by
    severity before exiting with the matching status ([check_exitcodes]).

    The SSH transport is left out: the text returned by [run_ssh_command]
    is the input of the model.  Python strings are modelled as [string];
    an [ascii] stands for the code point of the same number, so the model
    covers the texts whose code points are below 256.  White space, line
    boundaries and decimal digits are those of Python for these code
    points. *)

From Stdlib Require Import ZArith NArith List Ascii String Lia Permutation.
From Stdlib Require Import HexadecimalString HexadecimalN.
From stdpp Require Import base strings gmap list.

Local Open Scope Z_scope.

(** ** Exceptions and the state-and-error monad of the plugin object *)

(** The exceptions the modelled code can raise. *)
Inductive exn : Type :=
| KeyError (key : string)
| ValueError (arg : string)
| IndexError.

Inductive result (A : Type) : Type :=
| Ok (a : A)
| Raise (e : exn).
Arguments Ok {A} a.
Arguments Raise {A} e.

(** The attributes of [self] that the methods write after [__init__]. *)
Record self_state : Type := mkSelf {
  include_taskname_list : list string;
  result_list : list string
}.

(** A method body: reads and updates [self], returns or raises. *)
Definition M (A : Type) : Type := self_state -> result (A * self_state).

Definition ret {A} (a : A) : M A := fun s => Ok (a, s).

Definition bind {A B} (m : M A) (k : A -> M B) : M B :=
  fun s => match m s with
           | Ok (a, s') => k a s'
           | Raise e => Raise e
           end.

(** [try: body except: handler] with a bare [except]. *)
Definition try_except {A} (body handler : M A) : M A :=
  fun s => match body s with
           | Ok r => Ok r
           | Raise _ => handler s
           end.

Definition lift {A} (r : result A) : M A :=
  fun s => match r with
           | Ok a => Ok (a, s)
           | Raise e => Raise e
           end.

Definition get_self : M self_state := fun s => Ok (s, s).

(** [self.result_list.append(line)] *)
Definition append_result (line : string) : M unit :=
  fun s => Ok (tt, mkSelf (include_taskname_list s) (result_list s ++ [line])).

(** [self.include_taskname_list = l] *)
Definition set_include_taskname_list (l : list string) : M unit :=
  fun s => Ok (tt, mkSelf l (result_list s)).

#[global] Instance M_ret : MRet M := @ret.
#[global] Instance M_bind : MBind M := fun A B k m => bind m k.

(** [for x in l: body x] *)
Fixpoint for_each {A} (l : list A) (body : A -> M unit) : M unit :=
  match l with
  | [] => ret tt
  | x :: l' => body x;; for_each l' body
  end.

(** ** The Python built-ins used by the plugin *)

Module Py.

(** [c.isspace()] for a code point below 256. *)
Definition is_space (c : ascii) : bool :=
  let n := N_of_ascii c in
  ((9 <=? n) && (n <=? 13) || (28 <=? n) && (n <=? 32)
   || (n =? 133) || (n =? 160))%N.

(** Line boundaries of [str.splitlines] below 256. *)
Definition is_linebreak (c : ascii) : bool :=
  let n := N_of_ascii c in
  ((10 <=? n) && (n <=? 13) || (28 <=? n) && (n <=? 30) || (n =? 133))%N.

Definition is_empty (s : string) : bool :=
  match s with EmptyString => true | _ => false end.

Fixpoint lstrip (s : string) : string :=
  match s with
  | String c r => if is_space c then lstrip r else s
  | EmptyString => EmptyString
  end.

Fixpoint rstrip (s : string) : string :=
  match s with
  | String c r =>
      let r' := rstrip r in
      if is_space c && is_empty r' then EmptyString else String c r'
  | EmptyString => EmptyString
  end.

(** [s.strip()] *)
Definition strip (s : string) : string := rstrip (lstrip s).

(** [sub in s], also what [re.search] decides for a pattern without
    special characters. *)
Fixpoint contains (sub s : string) : bool :=
  if String.prefix sub s then true
  else match s with
       | String _ r => contains sub r
       | EmptyString => false
       end.

(** [s.splitlines()]: a carriage return followed by a line feed is one
    boundary, and a final boundary opens no further line. *)
Fixpoint splitlines (s : string) : list string :=
  match s with
  | EmptyString => []
  | String c r =>
      if is_linebreak c then
        if Ascii.eqb c "013" && String.prefix (String "010" EmptyString) r
        then splitlines r
        else EmptyString :: splitlines r
      else match splitlines r with
           | [] => [String c EmptyString]
           | l :: ls => String c l :: ls
           end
  end.

(** [s.split(sep, 1)] for a one-character separator. *)
Fixpoint split1 (sep : ascii) (s : string) : list string :=
  match s with
  | EmptyString => [EmptyString]
  | String c r =>
      if Ascii.eqb c sep then [EmptyString; r]
      else match split1 sep r with
           | [] => [String c EmptyString]
           | a :: rest => String c a :: rest
           end
  end.

(** [l[i]] *)
Definition index {A} (l : list A) (i : nat) : result A :=
  match nth_error l i with
  | Some x => Ok x
  | None => Raise IndexError
  end.

(** [l[i:j]] for [0 <= i <= j]. *)
Definition slice {A} (l : list A) (i j : nat) : list A :=
  firstn (j - i) (skipn i l).

(** [d[k]] on a dictionary *)
Definition getitem (d : gmap string string) (k : string) : result string :=
  match d !! k with
  | Some v => Ok v
  | None => Raise (KeyError k)
  end.

(** [x in l] on a list of strings *)
Definition in_list (x : string) (l : list string) : bool :=
  existsb (String.eqb x) l.

(** *** [int(s)] *)

Definition digit_value (c : ascii) : option Z :=
  let n := N_of_ascii c in
  if ((48 <=? n) && (n <=? 57))%N then Some (Z.of_N n - 48) else None.

(** The digits of a literal, most significant first: underscores may only
    separate two digits.  [prev] tells whether the previous character was a
    digit, so that the literal neither starts nor ends with an underscore
    and is not empty. *)
Fixpoint literal_digits (prev : bool) (s : string) : option (list Z) :=
  match s with
  | EmptyString => if prev then Some [] else None
  | String c r =>
      if Ascii.eqb c "_" then
        if prev then literal_digits false r else None
      else match digit_value c with
           | Some d => option_map (cons d) (literal_digits true r)
           | None => None
           end
  end.

Definition digits_value (ds : list Z) : Z :=
  fold_left (fun acc d => 10 * acc + d) ds 0.

(** CPython's default bound on the number of digits of a decimal literal
    ([sys.int_info.default_max_str_digits]). *)
Definition int_max_str_digits : nat := 4300.

Definition unsigned_literal (s : string) : option Z :=
  match literal_digits false s with
  | Some ds =>
      if (length ds <=? int_max_str_digits)%nat
      then Some (digits_value ds) else None
  | None => None
  end.

(** The white space [int] skips around a literal: the ASCII characters of
    C's [isspace] (the separators 28 to 31 are not among them, so [int]
    rejects a text that carries one), and outside ASCII the Unicode white
    space, which below 256 is 133 and 160. *)
Definition is_int_space (c : ascii) : bool :=
  let n := N_of_ascii c in
  ((9 <=? n) && (n <=? 13) || (n =? 32) || (n =? 133) || (n =? 160))%N.

Fixpoint int_lstrip (s : string) : string :=
  match s with
  | String c r => if is_int_space c then int_lstrip r else s
  | EmptyString => EmptyString
  end.

Fixpoint int_rstrip (s : string) : string :=
  match s with
  | String c r =>
      let r' := int_rstrip r in
      if is_int_space c && is_empty r' then EmptyString else String c r'
  | EmptyString => EmptyString
  end.

Definition parse_int (s : string) : option Z :=
  match int_rstrip (int_lstrip s) with
  | String "-" r => option_map Z.opp (unsigned_literal r)
  | String "+" r => unsigned_literal r
  | t => unsigned_literal t
  end.

Definition int (s : string) : result Z :=
  match parse_int s with
  | Some z => Ok z
  | None => Raise (ValueError s)
  end.

(** *** [hex(n)] *)

Definition hex (z : Z) : string :=
  (if (z <? 0)%Z then "-" else "") +:+ "0x"
  +:+ NilEmpty.string_of_uint (N.to_hex_uint (Z.abs_N z)).

End Py.

(** ** The plugin *)

(** The command-line options read by the modelled methods. *)
Record options : Type := mkOptions {
  include_taskname : list string;
  ignore_taskname : list string;
  ignore_resultcode : list string;
  ignore_nextruntime : bool
}.

(** [list(s)] on a set of strings enumerates each member once, in an order
    that depends on the string hashes of the running process. *)
Definition set_order : Type := gset string -> list string.

Definition valid_order (order : set_order) : Prop :=
  forall S : gset string, Permutation (order S) (elements S).

(** What a run of the process shows: the printed lines and the exit status,
    or the exception that ended it before anything was printed. *)
Inductive outcome : Type :=
| Exit (stdout : list string) (status : Z)
| Uncaught (e : exn).

Definition result_code_hex_converter (decimal_code : Z) : string :=
  Py.hex decimal_code.

Definition check_task_result_string (task_hex_code : string) : string :=
  if String.eqb task_hex_code "0x0" then
    "The task did run properly."
  else if String.eqb task_hex_code "0x1" then
    "The task did not run properly."
  else if String.eqb task_hex_code "0x2" then
    "File not found."
  else if String.eqb task_hex_code "0xa" then
    "The environment is incorrect."
  else if String.eqb task_hex_code "0x103" then
    "No more data is available."
  else if String.eqb task_hex_code "0x41301" then
    "The task is currently running."
  else if String.eqb task_hex_code "0x41302" then
    "The task will not run at the scheduled times because it has been disabled."
  else if String.eqb task_hex_code "0x41303" then
    "The task has not yet run."
  else if String.eqb task_hex_code "0x41305" then
    "One or more of the properties that are needed to run this task on a schedule have not been set."
  else if String.eqb task_hex_code "0x41306" then
    "The last run of the task was terminated by the user."
  else if String.eqb task_hex_code "0x41307" then
    "Either the task has no triggers or the existing triggers are disabled or not set."
  else if String.eqb task_hex_code "0x420" then
    "An instance of the service is already running."
  else if String.eqb task_hex_code "0x800710e0" then
    "The operator or administrator has refused the request."
  else if String.eqb task_hex_code "0x800700b7" then
    "Cannot create a file when that file already exists."
  else if String.eqb task_hex_code "0x8007042b" then
    "The process terminated unexpectedly."
  else if String.eqb task_hex_code "0x40010004" then
    "Debugger terminated the process."
  else if String.eqb task_hex_code "0x80004003" then
    "Invalid pointer."
  else if String.eqb task_hex_code "0x80004005" then
    "Unspecified error."
  else if String.eqb task_hex_code "0x80090030" then
    "The device that is required by this cryptographic provider is not ready for use."
  else if String.eqb task_hex_code "0x10000000" then
    "Task has a special error, see: https://devblogs.microsoft.com/oldnewthing/20121227-00/?p=5713"
  else if String.eqb task_hex_code "0x8000000a" then
    "The data necessary to complete this operation is not yet available."
  else if String.eqb task_hex_code "0x800710e0" then
    "The operator or administrator has refused the request."
  else
    "UNKNOWN error code!".

(** *** [get_windows_task], from the text returned by [run_ssh_command] *)

(** The first loop: the positions of the lines that contain the label. *)
Fixpoint element_index_list (perfdata_list : list string) (counter : nat)
  : list nat :=
  match perfdata_list with
  | [] => []
  | element :: rest =>
      (if Py.contains "LastRunTime" element then [counter] else [])
      ++ element_index_list rest (S counter)
  end.

(** The second loop: a window of seven lines from each position. *)
Definition full_task_list (perfdata_list : list string) : list (list string) :=
  map (fun index_number => Py.slice perfdata_list index_number (index_number + 7))
      (element_index_list perfdata_list 0).

(** The body of the innermost loop.  In [d[k] = v] Python evaluates [v]
    before [k]. *)
Definition store_detail (task_dict : gmap string string)
    (single_task_detail : string) : M (gmap string string) :=
  let task_preference_list := Py.split1 ":" single_task_detail in
  try_except
    (v ← lift (Py.index task_preference_list 1);
     k ← lift (Py.index task_preference_list 0);
     mret (<[Py.strip k := Py.strip v]> task_dict))
    (v ← lift (Py.index task_preference_list 1);
     k ← lift (Py.index task_preference_list 0);
     mret (<[Py.strip k := v]> task_dict)).

Fixpoint task_dict_of (task_details_list : list string)
    (task_dict : gmap string string) : M (gmap string string) :=
  match task_details_list with
  | [] => mret task_dict
  | single_task_detail :: rest =>
      task_dict' ← store_detail task_dict single_task_detail;
      task_dict_of rest task_dict'
  end.

Fixpoint full_task_dict_list (tasks : list (list string))
  : M (list (gmap string string)) :=
  match tasks with
  | [] => mret []
  | task_details_list :: rest =>
      task_dict ← task_dict_of task_details_list ∅;
      dicts ← full_task_dict_list rest;
      mret (task_dict :: dicts)
  end.

Definition get_windows_task (opts : options) (perfdata : string)
  : M (list (gmap string string)) :=
  set_include_taskname_list (map Py.strip (include_taskname opts));;
  let perfdata_list := Py.splitlines perfdata in
  let perfdata_list := List.filter (fun x => negb (Py.is_empty x)) perfdata_list in
  full_task_dict_list (full_task_list perfdata_list).

(** *** [check_task_details] *)

Definition output_message_of (task_name task_result_string task_location
    task_hex_code : string) : string :=
  "'" +:+ task_name +:+ "': " +:+ task_result_string +:+ " Task location: "
  +:+ task_location +:+ ". Result code: " +:+ task_hex_code.

Definition not_scheduled_message (task_name task_location : string) : string :=
  "WARNING - '" +:+ task_name
  +:+ "' is not scheduled or no trigger. Task location: " +:+ task_location
  +:+ ".".

Definition missing_message (missing_taskname : string) : string :=
  "WARNING - '" +:+ missing_taskname
  +:+ "' task can not be found. Please check task name!".

(** The nested function; [task_detail_dict] and [task_name] are the
    variables of the enclosing loop it reads. *)
Definition internal_task_check (opts : options)
    (task_detail_dict : gmap string string) (task_name : string)
    (task_include : bool) : M unit :=
  task_location ← lift (Py.getitem task_detail_dict "TaskPath");
  task_nextruntime ← lift (Py.getitem task_detail_dict "NextRunTime");
  last_task_result ← lift (Py.getitem task_detail_dict "LastTaskResult");
  task_result_code ← lift (Py.int last_task_result);
  task_trigger ← try_except (lift (Py.getitem task_detail_dict "Enabled"))
                            (mret "True");
  let task_hex_code := result_code_hex_converter task_result_code in
  if negb (Py.in_list task_hex_code (ignore_resultcode opts)) then
    let task_result_string := check_task_result_string task_hex_code in
    let output_message :=
      output_message_of task_name task_result_string task_location
                        task_hex_code in
    last_task_result' ← lift (Py.getitem task_detail_dict "LastTaskResult");
    if negb (String.eqb last_task_result' "0") then
      append_result ("WARNING - " +:+ output_message)
    else if Bool.eqb (ignore_nextruntime opts) false then
      if Py.is_empty task_nextruntime || String.eqb task_trigger "False" then
        append_result (not_scheduled_message task_name task_location)
      else if Bool.eqb task_include true then
        append_result ("OK - " +:+ output_message)
      else mret tt
    else if Bool.eqb task_include true then
      append_result ("OK - " +:+ output_message)
    else mret tt
  else mret tt.

(** The first loop of [check_task_details]. *)
Fixpoint taskname_list_of (task_dict_list : list (gmap string string))
  : M (list string) :=
  match task_dict_list with
  | [] => mret []
  | task_detail_dict :: rest =>
      task_name ← lift (Py.getitem task_detail_dict "TaskName");
      names ← taskname_list_of rest;
      mret (task_name :: names)
  end.

(** The body of the last loop. *)
Definition check_one_task (opts : options)
    (task_detail_dict : gmap string string) : M unit :=
  task_name ← lift (Py.getitem task_detail_dict "TaskName");
  self ← get_self;
  if (0 <? length (include_taskname_list self))%nat then
    if Py.in_list task_name (include_taskname_list self) then
      internal_task_check opts task_detail_dict task_name true
    else mret tt
  else
    if negb (Py.in_list task_name (ignore_taskname opts)) then
      internal_task_check opts task_detail_dict task_name false
    else mret tt.

Definition check_task_details (order : set_order) (opts : options)
    (task_dict_list : list (gmap string string)) : M unit :=
  taskname_list ← taskname_list_of task_dict_list;
  self ← get_self;
  let different_list :=
    order (list_to_set (include_taskname_list self) ∖ list_to_set taskname_list) in
  (if (0 <? length different_list)%nat then
     for_each different_list
       (fun missing_taskname => append_result (missing_message missing_taskname))
   else mret tt);;
  for_each task_dict_list (check_one_task opts).

(** *** [check_exitcodes] *)

Definition any_contains (marker : string) (result_list : list string) : bool :=
  existsb (Py.contains marker) result_list.

Definition printed_lines (result_list : list string) : list string :=
  (if any_contains "CRITICAL" result_list
   then List.filter (Py.contains "CRITICAL") result_list else [])
  ++ (if any_contains "WARNING" result_list
      then List.filter (Py.contains "WARNING") result_list else [])
  ++ (if any_contains "OK -" result_list
      then List.filter (Py.contains "OK -") result_list else []).

Definition exit_status (result_list : list string) : Z :=
  if any_contains "CRITICAL" result_list then 2
  else if any_contains "WARNING" result_list then 1
  else 0.

Definition check_exitcodes (result_list : list string) : outcome :=
  Exit (printed_lines result_list) (exit_status result_list).

(** *** [main], started from the state left by [__init__] *)

Definition init_self : self_state := mkSelf [] [].

Definition main (order : set_order) (opts : options) (perfdata : string)
  : outcome :=
  match (task_dict_list ← get_windows_task opts perfdata;
         check_task_details order opts task_dict_list) init_self with
  | Ok (_, self) => check_exitcodes (result_list self)
  | Raise e => Uncaught e
  end.

(** ** Notions used in the statements *)

(** A task is selected by the last loop of [check_task_details] when its
    name is among the included names, if any were given, and else when it
    is not among the ignored names. *)
Definition selected (opts : options) (included : list string)
    (task_name : string) : bool :=
  if (0 <? length included)%nat then Py.in_list task_name included
  else negb (Py.in_list task_name (ignore_taskname opts)).

(** The mode of the run: [True] is passed as [task_include] exactly when
    included names were given. *)
Definition include_mode (included : list string) : bool :=
  (0 <? length included)%nat.

(** The lines that the body of the last loop adds for one record, or the
    exception it raises: [check_one_task] run on an empty result list. *)
Definition task_lines (opts : options) (included : list string)
    (d : gmap string string) : result (list string) :=
  match check_one_task opts d (mkSelf included []) with
  | Ok (_, self) => Ok (result_list self)
  | Raise e => Raise e
  end.

(** The same for the whole loop. *)
Definition all_task_lines (opts : options) (included : list string)
    (task_dict_list : list (gmap string string)) : result (list string) :=
  match for_each task_dict_list (check_one_task opts) (mkSelf included []) with
  | Ok (_, self) => Ok (result_list self)
  | Raise e => Raise e
  end.

(** The dictionaries cut out of a text; they do not depend on the options. *)
Definition parsed_tasks (perfdata : string)
  : result (list (gmap string string)) :=
  match get_windows_task (mkOptions [] [] [] false) perfdata init_self with
  | Ok (task_dict_list, _) => Ok task_dict_list
  | Raise e => Raise e
  end.

Definition has_key (d : gmap string string) (k : string) : bool :=
  match d !! k with Some _ => true | None => false end.

Definition has_integer_result (d : gmap string string) : bool :=
  match d !! "LastTaskResult" with
  | Some raw => match Py.parse_int raw with Some _ => true | None => false end
  | None => false
  end.

(** A record with the fields that the evaluation reads. *)
Definition well_formed_record (d : gmap string string) : bool :=
  has_key d "TaskName" && has_key d "TaskPath" && has_key d "NextRunTime"
  && has_integer_result d.

(** The names of the records, in order ([None] when one has no name). *)
Definition task_names (task_dict_list : list (gmap string string))
  : option (list string) :=
  mapM (fun d : gmap string string => d !! "TaskName") task_dict_list.

Fixpoint last_char (s : string) : option ascii :=
  match s with
  | EmptyString => None
  | String c r => match last_char r with
                  | Some c' => Some c'
                  | None => Some c
                  end
  end.

(** A record that the evaluation cannot get past: it has no name, or it is
    selected and lacks a field that [internal_task_check] reads or carries
    a last result that [int] rejects. *)
Definition aborting_block (opts : options) (included : list string)
    (d : gmap string string) : bool :=
  match d !! "TaskName" with
  | None => true
  | Some task_name =>
      selected opts included task_name
      && negb (has_key d "TaskPath" && has_key d "NextRunTime"
               && has_integer_result d)
  end.

Definition key_or_value_error (e : exn) : Prop :=
  match e with
  | KeyError _ | ValueError _ => True
  | IndexError => False
  end.

(** A complete block with a failed last run, and a block cut after its
    fifth line. *)
Definition failed_block : string :=
"LastRunTime        : 2024-01-01 10:00:00
LastTaskResult     : 1
NextRunTime        : 2024-01-02 10:00:00
NumberOfMissedRuns : 0
TaskName           : Backup
TaskPath           : \
".

Definition truncated_block : string :=
"LastRunTime        : 2024-01-01 11:00:00
LastTaskResult     : 0
NextRunTime        : 2024-01-02 11:00:00
NumberOfMissedRuns : 0
TaskName           : Cleanup
".

Definition garbled_block : string :=
"LastRunTime        : 2024-01-01 11:00:00
LastTaskResult     : n/a
NextRunTime        : 2024-01-02 11:00:00
NumberOfMissedRuns : 0
TaskName           : Cleanup
TaskPath           : \
".

Definition no_options : options := mkOptions [] [] [] false.

(** A complete block followed by a line without a colon. *)
Definition stray_line_text : string := failed_block +:+ "(end of list)".

(** A failed task whose name contains the word CRITICAL. *)
Definition critical_named_block : string :=
"LastRunTime        : 2024-01-01 10:00:00
LastTaskResult     : 1
NextRunTime        : 2024-01-02 10:00:00
NumberOfMissedRuns : 0
TaskName           : CRITICAL job
TaskPath           : \
".

(** A task whose last result is zero, written with two digits. *)
Definition double_zero_block : string :=
"LastRunTime        : 2024-01-01 10:00:00
LastTaskResult     : 00
NextRunTime        : 2024-01-02 10:00:00
NumberOfMissedRuns : 0
TaskName           : Backup
TaskPath           : \
".

(** The trigger of a record as [internal_task_check] reads it. *)
Definition trigger_of (d : gmap string string) : string :=
  default "True" (d !! "Enabled").

(** A string with an upper-case letter A..Z. *)
Fixpoint has_upper (s : string) : bool :=
  match s with
  | EmptyString => false
  | String c r =>
      let n := N_of_ascii c in
      ((65 <=? n) && (n <=? 90))%N || has_upper r
  end.

(** A task that has not yet run: result 267011, code 0x41303. *)
Definition not_yet_run_block : string :=
"LastRunTime        : 1999-11-30 00:00:00
LastTaskResult     : 267011
NextRunTime        : 2024-01-02 10:00:00
NumberOfMissedRuns : 0
TaskName           : Backup
TaskPath           : \
".

(** A task whose process terminated: result 2147943467, code 0x8007042b. *)
Definition terminated_block : string :=
"LastRunTime        : 2024-01-01 10:00:00
LastTaskResult     : 2147943467
NextRunTime        : 2024-01-02 10:00:00
NumberOfMissedRuns : 0
TaskName           : Sync
TaskPath           : \
".

(** The enumeration of a set in the reverse of the order of [elements]. *)
Definition reverse_elements : set_order :=
  fun S => reverse (elements S).

(** The records cut out of [not_yet_run_block]. *)
Definition not_yet_run_tasks : list (gmap string string) :=
  match parsed_tasks not_yet_run_block with
  | Ok task_dict_list => task_dict_list
  | Raise _ => []
  end.

(** A task whose result is reported as a negative number. *)
Definition access_denied_block : string :=
"LastRunTime        : 2024-01-01 10:00:00
LastTaskResult     : -2147024891
NextRunTime        : 2024-01-02 10:00:00
NumberOfMissedRuns : 0
TaskName           : Mirror
TaskPath           : \Vendor\
".

(** The first record cut out of a text. *)
Definition first_task (perfdata : string) : gmap string string :=
  match parsed_tasks perfdata with
  | Ok (d :: _) => d
  | _ => ∅
  end.

(** A computation that neither reads nor writes the state of [self]. *)
Definition stateless {A} (m : M A) : Prop :=
  forall self, m self = match m init_self with
                        | Ok (a, _) => Ok (a, self)
                        | Raise e => Raise e
                        end.

(** The records of the scenarios of the specification. *)
Definition succeeded_block : string :=
"LastRunTime        : 2023-12-31 10:00:00
LastTaskResult     : 0
NextRunTime        : 2024-01-01
NumberOfMissedRuns : 0
TaskName           : Backup
TaskPath           : \
".

Definition properties_not_set_block : string :=
"LastRunTime        : 2023-12-31 10:00:00
LastTaskResult     : 267013
NextRunTime        : 2024-01-01
NumberOfMissedRuns : 0
TaskName           : Backup
TaskPath           : \
".

Definition unscheduled_block : string :=
"LastRunTime        : 2023-12-31 10:00:00
LastTaskResult     : 0
NextRunTime        :
NumberOfMissedRuns : 0
TaskName           : Backup
TaskPath           : \
".

(** ** Further notions: the result list of a run and the shape of its lines *)

(** The result list that [main] hands to [check_exitcodes], or the
    exception raised before. *)
Definition run_result_list (order : set_order) (opts : options)
    (perfdata : string) : result (list string) :=
  match (task_dict_list ← get_windows_task opts perfdata;
         check_task_details order opts task_dict_list) init_self with
  | Ok (_, self) => Ok (result_list self)
  | Raise e => Raise e
  end.

Definition is_warning_line (line : string) : bool :=
  String.prefix "WARNING - " line.

Definition is_ok_line (line : string) : bool :=
  String.prefix "OK - " line.

(** The test made by the last loop of [check_task_details] on a record. *)
Definition is_selected (opts : options) (included : list string)
    (d : gmap string string) : bool :=
  match d !! "TaskName" with
  | Some task_name => selected opts included task_name
  | None => true
  end.

(** Two complete blocks: a succeeded task and a failed one. *)
Definition two_blocks : string := succeeded_block +:+ failed_block.

(** The lines that [get_windows_task] keeps of a text. *)
Definition perfdata_lines (perfdata : string) : list string :=
  List.filter (fun x => negb (Py.is_empty x)) (Py.splitlines perfdata).

(** The label and the value that [store_detail] stores for a line. *)
Definition detail_of (single_task_detail : string) : option (string * string) :=
  match Py.split1 ":" single_task_detail with
  | [label; value] => Some (Py.strip label, Py.strip value)
  | _ => None
  end.

Definition has_colon (line : string) : bool := Py.contains ":" line.

(** The dictionary built from the lines of one window, when every line
    has a colon: later lines overwrite earlier ones with the same label. *)
Definition dict_of_details (details : list (string * string))
    (task_dict : gmap string string) : gmap string string :=
  fold_left (fun d kv => <[kv.1 := kv.2]> d) details task_dict.

(** The lexicon of [check_task_result_string], keyed by the integer
    result. *)
Definition lexicon_by_result : list (Z * string) :=
  [ (0, "The task did run properly.");
    (1, "The task did not run properly.");
    (2, "File not found.");
    (10, "The environment is incorrect.");
    (259, "No more data is available.");
    (267009, "The task is currently running.");
    (267010, "The task will not run at the scheduled times because it has been disabled.");
    (267011, "The task has not yet run.");
    (267013, "One or more of the properties that are needed to run this task on a schedule have not been set.");
    (267014, "The last run of the task was terminated by the user.");
    (267015, "Either the task has no triggers or the existing triggers are disabled or not set.");
    (1056, "An instance of the service is already running.");
    (2147946720, "The operator or administrator has refused the request.");
    (2147942583, "Cannot create a file when that file already exists.");
    (2147943467, "The process terminated unexpectedly.");
    (1073807364, "Debugger terminated the process.");
    (2147500035, "Invalid pointer.");
    (2147500037, "Unspecified error.");
    (2148073520, "The device that is required by this cryptographic provider is not ready for use.");
    (268435456, "Task has a special error, see: https://devblogs.microsoft.com/oldnewthing/20121227-00/?p=5713");
    (2147483658, "The data necessary to complete this operation is not yet available.") ].

Definition description_of_result (n : Z) : string :=
  match List.find (fun entry => (n =? entry.1)%Z) lexicon_by_result with
  | Some entry => entry.2
  | None => "UNKNOWN error code!"
  end.

From Stdlib Require DecimalString DecimalPos DecimalZ.

(** The decimal numeral of an integer, as the remote host prints a
    result. *)
Definition decimal (n : Z) : string :=
  DecimalString.NilZero.string_of_int (Z.to_int n).

(** The digits of a decimal numeral, most significant first. *)
Fixpoint uint_digits (u : Decimal.uint) : list Z :=
  match u with
  | Decimal.Nil => []
  | Decimal.D0 l => 0 :: uint_digits l
  | Decimal.D1 l => 1 :: uint_digits l
  | Decimal.D2 l => 2 :: uint_digits l
  | Decimal.D3 l => 3 :: uint_digits l
  | Decimal.D4 l => 4 :: uint_digits l
  | Decimal.D5 l => 5 :: uint_digits l
  | Decimal.D6 l => 6 :: uint_digits l
  | Decimal.D7 l => 7 :: uint_digits l
  | Decimal.D8 l => 8 :: uint_digits l
  | Decimal.D9 l => 9 :: uint_digits l
  end.

(** *** [clean_string] *)

(** [re.sub('\s+', ' ', mystring)]: every maximal run of white space
    becomes one space.  [in_run] tells whether the previous character was
    white space. *)
Fixpoint clean_string_from (in_run : bool) (mystring : string) : string :=
  match mystring with
  | EmptyString => EmptyString
  | String c r =>
      if Py.is_space c then
        if in_run then clean_string_from true r
        else String " " (clean_string_from true r)
      else String c (clean_string_from false r)
  end.

Definition clean_string (mystring : string) : string :=
  clean_string_from false mystring.

(** A string in which the only white space is the space character and no
    two spaces are adjacent ([after_space]: the previous character was a
    space). *)
Fixpoint single_spaced_from (after_space : bool) (s : string) : bool :=
  match s with
  | EmptyString => true
  | String c r =>
      if Py.is_space c then
        Ascii.eqb c " " && negb after_space && single_spaced_from true r
      else single_spaced_from false r
  end.

Definition single_spaced (s : string) : bool := single_spaced_from false s.

(** The words of a string: its maximal runs of characters that are not
    white space ([str.split()]). *)
Fixpoint words (s : string) : list string :=
  match s with
  | EmptyString => []
  | String c r =>
      if Py.is_space c then words r
      else match r with
           | EmptyString => [String c EmptyString]
           | String c' _ =>
               if Py.is_space c' then String c EmptyString :: words r
               else match words r with
                    | w :: ws => String c w :: ws
                    | [] => [String c EmptyString]
                    end
           end
  end.

(** *** Words that the report looks for *)

Fixpoint has_char (c : ascii) (s : string) : bool :=
  match s with
  | EmptyString => false
  | String c' r => Ascii.eqb c' c || has_char c r
  end.

(** A string that contains none of the three words that [check_exitcodes]
    looks for. *)
Definition marker_free (s : string) : bool :=
  negb (Py.contains "CRITICAL" s) && negb (Py.contains "WARNING" s)
  && negb (Py.contains "OK -" s).

Definition field_free (d : gmap string string) (k : string) : bool :=
  match d !! k with
  | Some v => marker_free v
  | None => true
  end.

(** A record whose name and path contain none of the three words. *)
Definition clean_record (d : gmap string string) : bool :=
  field_free d "TaskName" && field_free d "TaskPath".

(** A word that cannot lie across a quote, a colon or a full stop, and
    does not start with a space. *)
Definition separable (w : string) : bool :=
  negb (Py.is_empty w) && negb (has_char "'" w) && negb (has_char ":" w)
  && negb (has_char "." w) && negb (String.prefix " " w).

(** A line in which the three words occur only as the severity at its
    start. *)
Definition well_marked (line : string) : Prop :=
  Py.contains "CRITICAL" line = false
  /\ Py.contains "WARNING" line = is_warning_line line
  /\ Py.contains "OK -" line = is_ok_line line
  /\ is_ok_line line = negb (is_warning_line line).

(** A record whose name and path do not contain the word CRITICAL. *)
Definition critical_free_record (d : gmap string string) : bool :=
  match d !! "TaskName" with
  | Some v => negb (Py.contains "CRITICAL" v)
  | None => true
  end
  && match d !! "TaskPath" with
     | Some v => negb (Py.contains "CRITICAL" v)
     | None => true
     end.

(** ** Records as the specification types them *)

(** The last result of a record is an integer, which the remote host
    prints as a decimal numeral: the field is the numeral of the integer
    that [int] reads in it. *)
Definition canonical_result (d : gmap string string) : bool :=
  match d !! "LastTaskResult" with
  | Some raw => match Py.parse_int raw with
                | Some n => String.eqb raw (decimal n)
                | None => false
                end
  | None => false
  end.

(** A record with a name, a path, a next run time and such a result. *)
Definition typed_record (d : gmap string string) : bool :=
  has_key d "TaskName" && has_key d "TaskPath" && has_key d "NextRunTime"
  && canonical_result d.

(** The name of the record is one of the included names. *)
Definition named_in (included : list string) (d : gmap string string)
  : bool :=
  match d !! "TaskName" with
  | Some task_name => Py.in_list task_name included
  | None => false
  end.

(** What a run with included names needs of a record: a name, and the
    typed fields when the name is an included one. *)
Definition evaluable (included : list string) (d : gmap string string)
  : bool :=
  has_key d "TaskName" && implb (named_in included d) (typed_record d).

(** The trigger is disabled exactly when the field [Enabled] is there and
    reads False. *)
Definition trigger_disabled (d : gmap string string) : bool :=
  match d !! "Enabled" with
  | Some v => String.eqb v "False"
  | None => false
  end.

(** The classification rule in the words of the specification, on the
    integer value of the last result: nothing for an ignored code, a
    WARNING with the summary for a result other than zero, a WARNING for a
    task without schedule or trigger when the schedule is enforced, and
    else an OK line with the summary if success is to be reported. *)
Definition spec_classify (opts : options) (report_on_success : bool)
    (d : gmap string string) : list string :=
  match d !! "TaskName", d !! "TaskPath", d !! "NextRunTime",
        d !! "LastTaskResult" with
  | Some name, Some path, Some next, Some raw =>
      match Py.parse_int raw with
      | Some n =>
          let code := Py.hex n in
          let summary :=
            "'" +:+ name +:+ "': " +:+ check_task_result_string code
            +:+ " Task location: " +:+ path +:+ ". Result code: " +:+ code in
          if Py.in_list code (ignore_resultcode opts) then []
          else if negb (n =? 0)%Z then ["WARNING - " +:+ summary]
          else if negb (ignore_nextruntime opts)
                  && (Py.is_empty next || trigger_disabled d)
          then ["WARNING - '" +:+ name
                +:+ "' is not scheduled or no trigger. Task location: "
                +:+ path +:+ "."]
          else if report_on_success then ["OK - " +:+ summary]
          else []
      | None => []
      end
  | _, _, _, _ => []
  end.

(** A succeeded task, a terminated one, and a third one whose last result
    is no number. *)
Definition mixed_text : string :=
  succeeded_block +:+ terminated_block +:+ garbled_block.

Definition mixed_tasks : list (gmap string string) :=
  match parsed_tasks mixed_text with
  | Ok task_dict_list => task_dict_list
  | Raise _ => []
  end.

(** ** The model on concrete inputs *)

(** The built-ins on a few inputs. *)
Example strip_ex : Py.strip "  a b	 " = "a b".
Proof. reflexivity. Qed.
Example splitlines_ex :
  Py.splitlines (String "a" (String "013" (String "010" (String "010" "b"))))
  = ["a"; ""; "b"].
Proof. reflexivity. Qed.
Example split1_ex : Py.split1 ":" "a : b:c" = ["a "; " b:c"].
Proof. reflexivity. Qed.
Example split1_none : Py.split1 ":" "abc" = ["abc"].
Proof. reflexivity. Qed.
Example int_ex : Py.int "-2147024891" = Ok (-2147024891).
Proof. reflexivity. Qed.
Example int_ex2 : Py.int "1_000" = Ok 1000.
Proof. reflexivity. Qed.
Example int_ex3 : Py.int "_1" = Raise (ValueError "_1").
Proof. reflexivity. Qed.
Example int_ex4 : Py.int "" = Raise (ValueError "").
Proof. reflexivity. Qed.
Example int_ex5 : Py.int "00" = Ok 0.
Proof. reflexivity. Qed.
Example int_ex6 : Py.int (String "009" "5 ") = Ok 5.
Proof. reflexivity. Qed.
Example int_ex7 :
  Py.int (String "028" "5") = Raise (ValueError (String "028" "5")).
Proof. reflexivity. Qed.
Example hex_ex : Py.hex 267011 = "0x41303".
Proof. reflexivity. Qed.
Example hex_ex0 : Py.hex 0 = "0x0".
Proof. reflexivity. Qed.
Example hex_exn : Py.hex (-2147024891) = "-0x7ff8fffb".
Proof. reflexivity. Qed.

(** The scenarios of the specification. *)
Example scenario_1 :
  main elements no_options succeeded_block = Exit [] 0.
Proof. vm_compute. reflexivity. Qed.
Example scenario_2 :
  main elements (mkOptions ["Backup"] [] [] false) succeeded_block
  = Exit ["OK - 'Backup': The task did run properly. Task location: \. Result code: 0x0"] 0.
Proof. vm_compute. reflexivity. Qed.
Example scenario_3 :
  main elements no_options properties_not_set_block
  = Exit ["WARNING - 'Backup': One or more of the properties that are needed to run this task on a schedule have not been set. Task location: \. Result code: 0x41305"] 1
  /\ main elements (mkOptions ["Backup"] [] [] false) properties_not_set_block
     = Exit ["WARNING - 'Backup': One or more of the properties that are needed to run this task on a schedule have not been set. Task location: \. Result code: 0x41305"] 1.
Proof. split; vm_compute; reflexivity. Qed.
Example scenario_4 :
  main elements (mkOptions ["Backup"] [] [] false) unscheduled_block
  = Exit ["WARNING - 'Backup' is not scheduled or no trigger. Task location: \."] 1
  /\ main elements (mkOptions ["Backup"] [] [] true) unscheduled_block
     = Exit ["OK - 'Backup': The task did run properly. Task location: \. Result code: 0x0"] 0.
Proof. split; vm_compute; reflexivity. Qed.

(** ** Reasoning tools *)

(** Unfolds the monad so that a method body becomes a function of the
    state of [self]. *)
Ltac unfold_M :=
  unfold mbind, M_bind, bind, mret, M_ret, ret, lift, try_except, get_self,
    append_result, set_include_taskname_list in *.

Lemma check_one_task_selected opts d task_name self :
  d !! "TaskName" = Some task_name ->
  selected opts (include_taskname_list self) task_name = true ->
  check_one_task opts d self
  = internal_task_check opts d task_name
      (include_mode (include_taskname_list self)) self.
Proof.
  intros Hname Hsel. unfold check_one_task, selected, include_mode in *.
  unfold_M. unfold Py.getitem. rewrite Hname.
  destruct (0 <? length (include_taskname_list self))%nat; rewrite Hsel; reflexivity.
Qed.

Lemma check_one_task_skipped opts d task_name self :
  d !! "TaskName" = Some task_name ->
  selected opts (include_taskname_list self) task_name = false ->
  check_one_task opts d self = Ok (tt, self).
Proof.
  intros Hname Hsel. unfold check_one_task, selected in *.
  unfold_M. unfold Py.getitem. rewrite Hname.
  destruct (0 <? length (include_taskname_list self))%nat; rewrite Hsel; reflexivity.
Qed.

Lemma parse_int_zero_text : Py.parse_int "0" = Some 0.
Proof. reflexivity. Qed.

(** ** Non-zero results *)

Lemma internal_task_check_nonzero opts d task_name task_include self
    task_location task_nextruntime last_task_result n :
  d !! "TaskPath" = Some task_location ->
  d !! "NextRunTime" = Some task_nextruntime ->
  d !! "LastTaskResult" = Some last_task_result ->
  Py.parse_int last_task_result = Some n ->
  n <> 0 ->
  Py.in_list (result_code_hex_converter n) (ignore_resultcode opts) = false ->
  internal_task_check opts d task_name task_include self
  = Ok (tt, mkSelf (include_taskname_list self)
              (result_list self
               ++ ["WARNING - '" +:+ task_name +:+ "': "
                   +:+ check_task_result_string (result_code_hex_converter n)
                   +:+ " Task location: " +:+ task_location
                   +:+ ". Result code: " +:+ result_code_hex_converter n])).
Proof.
  intros Hpath Hnext Hlast Hint Hn Hign.
  unfold internal_task_check. unfold_M. unfold Py.getitem, Py.int.
  rewrite Hpath, Hnext, Hlast, Hint.
  destruct (d !! "Enabled"); rewrite Hign; cbn [negb].
  all: destruct (String.eqb_spec last_task_result "0") as [->|_];
    [rewrite parse_int_zero_text in Hint; congruence | reflexivity].
Qed.

(** C4. An evaluated record whose result code is not ignored and whose last
    result is an integer other than zero adds exactly one WARNING line made
    of the task name, the description of the code, the task path and the
    hexadecimal code; the line is the same in include and in exclude mode
    and whatever the next run time, the trigger and the
    [--ignore-nextruntime] flag are. *)
Theorem nonzero_result_warns opts d self task_name task_location
    task_nextruntime last_task_result n :
  d !! "TaskName" = Some task_name ->
  selected opts (include_taskname_list self) task_name = true ->
  d !! "TaskPath" = Some task_location ->
  d !! "NextRunTime" = Some task_nextruntime ->
  d !! "LastTaskResult" = Some last_task_result ->
  Py.parse_int last_task_result = Some n ->
  n <> 0 ->
  Py.in_list (result_code_hex_converter n) (ignore_resultcode opts) = false ->
  check_one_task opts d self
  = Ok (tt, mkSelf (include_taskname_list self)
              (result_list self
               ++ ["WARNING - '" +:+ task_name +:+ "': "
                   +:+ check_task_result_string (result_code_hex_converter n)
                   +:+ " Task location: " +:+ task_location
                   +:+ ". Result code: " +:+ result_code_hex_converter n])).
Proof.
  intros Hname Hsel Hpath Hnext Hlast Hint Hn Hign.
  rewrite (check_one_task_selected _ _ _ _ Hname Hsel).
  eapply internal_task_check_nonzero; eassumption.
Qed.

Lemma nonzero_result_warns_witness :
  check_one_task no_options (first_task not_yet_run_block) init_self
  = Ok (tt, mkSelf []
              ["WARNING - 'Backup': The task has not yet run. Task location: \. Result code: 0x41303"]).
Proof.
  apply (nonzero_result_warns no_options (first_task not_yet_run_block)
           init_self "Backup" "\" "2024-01-02 10:00:00" "267011" 267011).
  - vm_compute. reflexivity.
  - reflexivity.
  - vm_compute. reflexivity.
  - vm_compute. reflexivity.
  - vm_compute. reflexivity.
  - reflexivity.
  - lia.
  - reflexivity.
Defined.

(** ** Ignored result codes *)

Lemma internal_task_check_ignored opts d task_name task_include self
    task_location task_nextruntime last_task_result n :
  d !! "TaskPath" = Some task_location ->
  d !! "NextRunTime" = Some task_nextruntime ->
  d !! "LastTaskResult" = Some last_task_result ->
  Py.parse_int last_task_result = Some n ->
  Py.in_list (result_code_hex_converter n) (ignore_resultcode opts) = true ->
  internal_task_check opts d task_name task_include self = Ok (tt, self).
Proof.
  intros Hpath Hnext Hlast Hint Hign.
  unfold internal_task_check. unfold_M. unfold Py.getitem, Py.int.
  rewrite Hpath, Hnext, Hlast, Hint.
  destruct (d !! "Enabled"); rewrite Hign; reflexivity.
Qed.

(** C5. A record whose hexadecimal result code is in the list of ignored
    codes adds no line at all: the state of the plugin is unchanged, in
    include and in exclude mode, whatever the result, the next run time and
    the trigger are. *)
Theorem ignored_code_emits_nothing opts d self task_name task_location
    task_nextruntime last_task_result n :
  d !! "TaskName" = Some task_name ->
  d !! "TaskPath" = Some task_location ->
  d !! "NextRunTime" = Some task_nextruntime ->
  d !! "LastTaskResult" = Some last_task_result ->
  Py.parse_int last_task_result = Some n ->
  Py.in_list (result_code_hex_converter n) (ignore_resultcode opts) = true ->
  check_one_task opts d self = Ok (tt, self).
Proof.
  intros Hname Hpath Hnext Hlast Hint Hign.
  destruct (selected opts (include_taskname_list self) task_name) eqn:Hsel.
  - rewrite (check_one_task_selected _ _ _ _ Hname Hsel).
    eapply internal_task_check_ignored; eassumption.
  - eapply check_one_task_skipped; eassumption.
Qed.

Lemma ignored_code_emits_nothing_witness :
  check_one_task (mkOptions [] [] ["0x41303"] false)
    (first_task not_yet_run_block) init_self
  = Ok (tt, init_self).
Proof.
  apply (ignored_code_emits_nothing (mkOptions [] [] ["0x41303"] false)
           (first_task not_yet_run_block) init_self "Backup" "\"
           "2024-01-02 10:00:00" "267011" 267011).
  - vm_compute. reflexivity.
  - vm_compute. reflexivity.
  - vm_compute. reflexivity.
  - vm_compute. reflexivity.
  - reflexivity.
  - reflexivity.
Defined.

(** ** Negative results *)

Lemma hex_negative n :
  n < 0 ->
  result_code_hex_converter n
  = "-0x" +:+ NilEmpty.string_of_uint (N.to_hex_uint (Z.abs_N n)).
Proof.
  intros Hn. unfold result_code_hex_converter, Py.hex.
  apply Z.ltb_lt in Hn. rewrite Hn. reflexivity.
Qed.

Lemma check_task_result_string_minus s :
  check_task_result_string (String "-" s) = "UNKNOWN error code!".
Proof. reflexivity. Qed.

(** C10. For a selected record whose result code is a negative integer and
    is not ignored, the hexadecimal code starts with "-0x", the lexicon
    answers with its sentinel, and one WARNING line carrying that sentinel
    is added. *)
Theorem negative_result_unknown_warning opts d self task_name task_location
    task_nextruntime last_task_result n :
  d !! "TaskName" = Some task_name ->
  selected opts (include_taskname_list self) task_name = true ->
  d !! "TaskPath" = Some task_location ->
  d !! "NextRunTime" = Some task_nextruntime ->
  d !! "LastTaskResult" = Some last_task_result ->
  Py.parse_int last_task_result = Some n ->
  n < 0 ->
  Py.in_list (result_code_hex_converter n) (ignore_resultcode opts) = false ->
  String.prefix "-0x" (result_code_hex_converter n) = true
  /\ check_task_result_string (result_code_hex_converter n)
     = "UNKNOWN error code!"
  /\ check_one_task opts d self
     = Ok (tt, mkSelf (include_taskname_list self)
                 (result_list self
                  ++ ["WARNING - '" +:+ task_name
                      +:+ "': UNKNOWN error code! Task location: "
                      +:+ task_location +:+ ". Result code: "
                      +:+ result_code_hex_converter n])).
Proof.
  intros Hname Hsel Hpath Hnext Hlast Hint Hn Hign.
  assert (Hunk : check_task_result_string (result_code_hex_converter n)
                 = "UNKNOWN error code!")
    by (rewrite (hex_negative n Hn); apply check_task_result_string_minus).
  split.
  { rewrite (hex_negative n Hn). cbn.
    destruct (NilEmpty.string_of_uint _); reflexivity. }
  split; [exact Hunk|].
  rewrite (check_one_task_selected _ _ _ _ Hname Hsel).
  erewrite internal_task_check_nonzero by (eassumption || lia).
  rewrite Hunk. reflexivity.
Qed.

Lemma negative_result_unknown_warning_witness :
  String.prefix "-0x" (result_code_hex_converter (-2147024891)) = true
  /\ check_task_result_string (result_code_hex_converter (-2147024891))
     = "UNKNOWN error code!"
  /\ check_one_task no_options (first_task access_denied_block) init_self
     = Ok (tt, mkSelf []
                 ["WARNING - 'Mirror': UNKNOWN error code! Task location: \Vendor\. Result code: -0x7ff8fffb"]).
Proof.
  apply (negative_result_unknown_warning no_options
           (first_task access_denied_block) init_self "Mirror" "\Vendor\"
           "2024-01-02 10:00:00" "-2147024891" (-2147024891)).
  - vm_compute. reflexivity.
  - reflexivity.
  - vm_compute. reflexivity.
  - vm_compute. reflexivity.
  - vm_compute. reflexivity.
  - reflexivity.
  - lia.
  - reflexivity.
Defined.

(** ** The methods as functions of the state *)

Lemma check_one_task_frame opts d self :
  check_one_task opts d self
  = match task_lines opts (include_taskname_list self) d with
    | Ok ls => Ok (tt, mkSelf (include_taskname_list self)
                         (result_list self ++ ls))
    | Raise e => Raise e
    end.
Proof.
  destruct self as [incl rl].
  unfold task_lines, check_one_task, internal_task_check. unfold_M.
  unfold Py.getitem, Py.int. cbn [include_taskname_list result_list].
  repeat (match goal with
          | |- context [match ?x with _ => _ end] =>
              lazymatch x with
              | context [match _ with _ => _ end] => fail
              | _ => destruct x eqn:?
              end
          end; cbn [include_taskname_list result_list app negb];
          rewrite ?app_nil_r; try reflexivity; try congruence).
Qed.

Lemma for_each_check_app opts tl incl rl :
  for_each tl (check_one_task opts) (mkSelf incl rl)
  = match all_task_lines opts incl tl with
    | Ok ls => Ok (tt, mkSelf incl (rl ++ ls))
    | Raise e => Raise e
    end.
Proof.
  unfold all_task_lines. revert rl.
  assert (Hgen : forall rl,
    for_each tl (check_one_task opts) (mkSelf incl rl)
    = match for_each tl (check_one_task opts) (mkSelf incl []) with
      | Ok (_, self) => Ok (tt, mkSelf incl (rl ++ result_list self))
      | Raise e => Raise e
      end).
  { induction tl as [|d tl IH]; intros rl.
    - cbn. unfold_M. rewrite app_nil_r. reflexivity.
    - cbn [for_each]. unfold mbind, M_bind, bind.
      rewrite (check_one_task_frame opts d (mkSelf incl rl)).
      rewrite (check_one_task_frame opts d (mkSelf incl [])).
      cbn [include_taskname_list result_list app].
      destruct (task_lines opts incl d) as [ls|e]; [|reflexivity].
      rewrite (IH (rl ++ ls)), (IH ls).
      destruct (for_each tl (check_one_task opts) (mkSelf incl []))
        as [[[] self]|e]; [|reflexivity].
      cbn [result_list]. rewrite app_assoc. reflexivity. }
  intros rl. rewrite Hgen.
  destruct (for_each tl (check_one_task opts) (mkSelf incl [])) as [[[] self]|e];
    reflexivity.
Qed.

Lemma all_task_lines_nil opts incl : all_task_lines opts incl [] = Ok [].
Proof. reflexivity. Qed.

Lemma all_task_lines_cons opts incl d tl :
  all_task_lines opts incl (d :: tl)
  = match task_lines opts incl d with
    | Ok ls => match all_task_lines opts incl tl with
               | Ok ls' => Ok (ls ++ ls')
               | Raise e => Raise e
               end
    | Raise e => Raise e
    end.
Proof.
  unfold all_task_lines at 1. cbn [for_each]. unfold mbind, M_bind, bind.
  rewrite check_one_task_frame. cbn [include_taskname_list result_list app].
  destruct (task_lines opts incl d) as [ls|e]; [|reflexivity].
  rewrite for_each_check_app.
  destruct (all_task_lines opts incl tl) as [ls'|e]; reflexivity.
Qed.

Lemma for_each_append (f : string -> string) l self :
  for_each l (fun x => append_result (f x)) self
  = Ok (tt, mkSelf (include_taskname_list self) (result_list self ++ map f l)).
Proof.
  revert self. induction l as [|x l IH]; intros [incl rl].
  - cbn. unfold_M. rewrite app_nil_r. reflexivity.
  - cbn [for_each]. unfold mbind, M_bind, bind, append_result.
    rewrite IH. cbn. rewrite <- app_assoc. reflexivity.
Qed.

Lemma taskname_list_of_run tl self :
  taskname_list_of tl self
  = match task_names tl with
    | Some names => Ok (names, self)
    | None => Raise (KeyError "TaskName")
    end.
Proof.
  unfold task_names. revert self.
  induction tl as [|d tl IH]; intros self; [reflexivity|].
  cbn [taskname_list_of]. unfold_M. unfold Py.getitem. cbn.
  destruct (d !! "TaskName"); [|reflexivity]. cbn.
  rewrite IH. destruct (mapM _ tl); reflexivity.
Qed.

(** [check_task_details] as a function of the state: the names of all
    records are read first, the included names without a record are
    reported next, and then the records are evaluated in order. *)
Lemma check_task_details_run order opts tl incl rl :
  check_task_details order opts tl (mkSelf incl rl)
  = match task_names tl with
    | None => Raise (KeyError "TaskName")
    | Some names =>
        match all_task_lines opts incl tl with
        | Ok ls =>
            Ok (tt, mkSelf incl
                      (rl ++ map missing_message
                                 (order (list_to_set incl ∖ list_to_set names))
                          ++ ls))
        | Raise e => Raise e
        end
    end.
Proof.
  unfold check_task_details. unfold mbind, M_bind, bind, get_self.
  rewrite taskname_list_of_run.
  destruct (task_names tl) as [names|]; [|reflexivity].
  cbn [include_taskname_list].
  set (D := order _).
  assert (Hmiss :
    (if (0 <? length D)%nat
     then for_each D (fun m => append_result (missing_message m))
     else mret tt) (mkSelf incl rl)
    = Ok (tt, mkSelf incl (rl ++ map missing_message D))).
  { destruct D as [|x D'].
    - cbn. unfold_M. rewrite app_nil_r. reflexivity.
    - cbn [length Nat.ltb Nat.leb]. apply for_each_append. }
  rewrite Hmiss. rewrite for_each_check_app.
  destruct (all_task_lines opts incl tl); [|reflexivity].
  rewrite <- app_assoc. reflexivity.
Qed.

Lemma stateless_ret {A} (a : A) : stateless (mret a).
Proof. intros self. reflexivity. Qed.

Lemma stateless_lift {A} (r : result A) : stateless (lift r).
Proof. intros self. destruct r; reflexivity. Qed.

Lemma stateless_bind {A B} (m : M A) (k : A -> M B) :
  stateless m -> (forall a, stateless (k a)) -> stateless (m ≫= k).
Proof.
  intros Hm Hk self. unfold mbind, M_bind, bind.
  rewrite (Hm self). destruct (m init_self) as [[a s0]|e]; [|reflexivity].
  rewrite (Hk a self), (Hk a s0).
  destruct (k a init_self) as [[b s1]|e]; reflexivity.
Qed.

Lemma stateless_try {A} (m h : M A) :
  stateless m -> stateless h -> stateless (try_except m h).
Proof.
  intros Hm Hh self. unfold try_except.
  rewrite (Hm self). destruct (m init_self) as [[a s0]|e]; [reflexivity|].
  apply Hh.
Qed.

Lemma stateless_store_detail d line : stateless (store_detail d line).
Proof.
  unfold store_detail.
  apply stateless_try;
    repeat (apply stateless_bind; [apply stateless_lift|intros ?]);
    apply stateless_ret.
Qed.

Lemma stateless_task_dict_of lines d : stateless (task_dict_of lines d).
Proof.
  revert d. induction lines as [|line lines IH]; intros d; cbn [task_dict_of].
  - apply stateless_ret.
  - apply stateless_bind; [apply stateless_store_detail|intros d'; apply IH].
Qed.

Lemma stateless_full_task_dict_list tasks :
  stateless (full_task_dict_list tasks).
Proof.
  induction tasks as [|t tasks IH]; cbn [full_task_dict_list].
  - apply stateless_ret.
  - apply stateless_bind; [apply stateless_task_dict_of|intros d].
    apply stateless_bind; [apply IH|intros ds]. apply stateless_ret.
Qed.

Lemma get_windows_task_run opts perfdata self :
  get_windows_task opts perfdata self
  = match parsed_tasks perfdata with
    | Ok tl => Ok (tl, mkSelf (map Py.strip (include_taskname opts))
                              (result_list self))
    | Raise e => Raise e
    end.
Proof.
  unfold parsed_tasks, get_windows_task.
  unfold mbind, M_bind, bind, set_include_taskname_list.
  cbn [include_taskname result_list init_self map].
  rewrite (stateless_full_task_dict_list _ (mkSelf _ (result_list self))).
  rewrite (stateless_full_task_dict_list _ (mkSelf [] [])).
  unfold init_self.
  destruct (full_task_dict_list _ _) as [[tl s]|e]; reflexivity.
Qed.

(** [main] as a function of its inputs. *)
Lemma main_run order opts perfdata :
  main order opts perfdata
  = match parsed_tasks perfdata with
    | Raise e => Uncaught e
    | Ok tl =>
        let incl := map Py.strip (include_taskname opts) in
        match task_names tl with
        | None => Uncaught (KeyError "TaskName")
        | Some names =>
            match all_task_lines opts incl tl with
            | Ok ls =>
                check_exitcodes
                  (map missing_message
                       (order (list_to_set incl ∖ list_to_set names)) ++ ls)
            | Raise e => Uncaught e
            end
        end
    end.
Proof.
  unfold main. unfold mbind, M_bind, bind.
  rewrite get_windows_task_run.
  destruct (parsed_tasks perfdata) as [tl|e]; [|reflexivity].
  cbn [result_list init_self]. rewrite check_task_details_run.
  cbv zeta. destruct (task_names tl); [|reflexivity].
  destruct (all_task_lines _ _ tl); reflexivity.
Qed.

(** ** Malformed blocks *)

Lemma task_lines_raise_kind opts incl d e :
  task_lines opts incl d = Raise e -> key_or_value_error e.
Proof.
  unfold task_lines, check_one_task, internal_task_check. unfold_M.
  unfold Py.getitem, Py.int. cbn [include_taskname_list].
  repeat (match goal with
          | |- context [match ?x with _ => _ end] =>
              lazymatch x with
              | context [match _ with _ => _ end] => fail
              | _ => destruct x eqn:?
              end
          end; cbn [negb]; try discriminate;
          try (intros [= <-]; exact I)).
Qed.

Lemma task_lines_aborting opts incl d :
  aborting_block opts incl d = true ->
  exists e, task_lines opts incl d = Raise e.
Proof.
  unfold aborting_block, selected, has_key, has_integer_result.
  unfold task_lines, check_one_task, internal_task_check. unfold_M.
  unfold Py.getitem, Py.int. cbn [include_taskname_list].
  destruct (d !! "TaskName") as [name|]; [|eauto].
  cbn [include_taskname_list].
  destruct (0 <? length incl)%nat.
  all: match goal with
       | |- context [Py.in_list ?n ?l] => destruct (Py.in_list n l)
       end; cbn [negb andb]; try discriminate.
  all: destruct (d !! "TaskPath"); [|eauto].
  all: destruct (d !! "NextRunTime"); [|eauto].
  all: destruct (d !! "LastTaskResult") as [raw|]; [|eauto].
  all: match goal with
       | |- context [Py.parse_int ?r] => destruct (Py.parse_int r)
       end; [discriminate|eauto].
Qed.

Lemma all_task_lines_aborting opts incl tl :
  existsb (aborting_block opts incl) tl = true ->
  exists e, all_task_lines opts incl tl = Raise e /\ key_or_value_error e.
Proof.
  induction tl as [|d tl IH]; [discriminate|].
  cbn [existsb]. intros Hex. rewrite all_task_lines_cons.
  destruct (task_lines opts incl d) as [ls|e] eqn:Hd.
  - destruct (aborting_block opts incl d) eqn:Hab.
    + destruct (task_lines_aborting _ _ _ Hab) as [e He]. congruence.
    + destruct (IH Hex) as (e & -> & Hk). eauto.
  - exists e. split; [reflexivity|]. eapply task_lines_raise_kind; eassumption.
Qed.

(** C2, as the code has it.  A malformed block is not recovered: when the
    text is cut into blocks of which one has no TaskName, or is selected
    and has no TaskPath, no NextRunTime, no LastTaskResult or a
    LastTaskResult that is not an integer, the run ends with an uncaught
    KeyError or ValueError and prints no line, also none for the other
    blocks. *)
Theorem malformed_block_aborts_run order opts perfdata tl :
  parsed_tasks perfdata = Ok tl ->
  existsb (aborting_block opts (map Py.strip (include_taskname opts))) tl
  = true ->
  exists e, main order opts perfdata = Uncaught e /\ key_or_value_error e.
Proof.
  intros Hparse Hbad. rewrite main_run, Hparse. cbv zeta.
  destruct (task_names tl) as [names|].
  - destruct (all_task_lines_aborting _ _ _ Hbad) as (e & -> & Hk). eauto.
  - exists (KeyError "TaskName"). split; [reflexivity|exact I].
Qed.

(** C2, as stated, fails: the complete block alone is reported, but with a
    truncated or a garbled block after it the run raises and nothing is
    printed. *)
Lemma truncated_block_is_not_dropped :
  main elements no_options failed_block
  = Exit ["WARNING - 'Backup': The task did not run properly. Task location: \. Result code: 0x1"] 1
  /\ main elements no_options (failed_block +:+ truncated_block)
     = Uncaught (KeyError "TaskPath")
  /\ main elements no_options (failed_block +:+ garbled_block)
     = Uncaught (ValueError "n/a").
Proof. repeat split; vm_compute; reflexivity. Qed.

Lemma malformed_block_aborts_run_witness :
  exists e,
    main elements no_options (failed_block +:+ truncated_block) = Uncaught e
    /\ key_or_value_error e.
Proof.
  apply (malformed_block_aborts_run elements no_options
           (failed_block +:+ truncated_block)
           (match parsed_tasks (failed_block +:+ truncated_block) with
            | Ok tl => tl
            | Raise _ => []
            end)).
  - vm_compute. reflexivity.
  - vm_compute. reflexivity.
Defined.

(** ** Lines of a block *)

Lemma prefix_empty s : String.prefix "" s = true.
Proof. destruct s; reflexivity. Qed.

Lemma split1_no_sep sep line :
  Py.contains (String sep "") line = false -> Py.split1 sep line = [line].
Proof.
  induction line as [|c r IH]; [reflexivity|].
  cbn [Py.contains String.prefix Py.split1].
  destruct (ascii_dec sep c) as [->|Hne].
  - rewrite prefix_empty. discriminate.
  - intros Hr. rewrite (proj2 (Ascii.eqb_neq c sep)) by congruence.
    rewrite (IH Hr). reflexivity.
Qed.

Lemma split1_first_sep sep label value :
  Py.contains (String sep "") label = false ->
  Py.split1 sep (label +:+ String sep value) = [label; value].
Proof.
  induction label as [|c r IH].
  - intros _. change ("" +:+ String sep value) with (String sep value).
    cbn [Py.split1]. rewrite Ascii.eqb_refl. reflexivity.
  - change (String c r +:+ String sep value)
      with (String c (r +:+ String sep value)).
    cbn [Py.contains String.prefix Py.split1].
    destruct (ascii_dec sep c) as [->|Hne].
    + rewrite prefix_empty. discriminate.
    + intros Hr. rewrite (proj2 (Ascii.eqb_neq c sep)) by congruence.
      rewrite (IH Hr). reflexivity.
Qed.

(** A line is split at its first colon only, and both parts are trimmed. *)
Lemma store_detail_colon d label value self :
  Py.contains ":" label = false ->
  store_detail d (label +:+ String ":" value) self
  = Ok (<[Py.strip label := Py.strip value]> d, self).
Proof.
  intros Hl. unfold store_detail. rewrite (split1_first_sep _ _ _ Hl).
  reflexivity.
Qed.

(** A line without a colon: the handler of the [try] statement evaluates
    the index that has just failed once more. *)
Lemma store_detail_no_colon d line self :
  Py.contains ":" line = false ->
  store_detail d line self = Raise IndexError.
Proof.
  intros Hl. unfold store_detail. rewrite (split1_no_sep _ _ Hl).
  reflexivity.
Qed.

(** C3, at a failing input.  The single line [LastRunTime] opens a block
    and has no colon: storing it raises IndexError whatever the dictionary
    is, and so do the parser and the run on that text, and on a complete
    block followed by a line without a colon. *)
Theorem colon_free_line_raises :
  (forall d self, store_detail d "LastRunTime" self = Raise IndexError)
  /\ (forall opts self,
        get_windows_task opts "LastRunTime" self = Raise IndexError)
  /\ (forall order opts, main order opts "LastRunTime" = Uncaught IndexError)
  /\ (forall order opts, main order opts stray_line_text = Uncaught IndexError).
Proof.
  split; [intros d self; apply store_detail_no_colon; reflexivity|].
  split; [intros opts self; rewrite get_windows_task_run; reflexivity|].
  split; intros order opts; rewrite main_run.
  - reflexivity.
  - replace (parsed_tasks stray_line_text) with
      (@Raise (list (gmap string string)) IndexError)
      by (vm_compute; reflexivity).
    reflexivity.
Qed.

(** ** Severity by substring *)

(** C1, at a failing input.  The only entry is the WARNING of a failed task
    named "CRITICAL job": it is printed twice, once among the lines that
    contain CRITICAL and once among those that contain WARNING, and the exit
    status is 2 although no entry is CRITICAL. *)
Theorem critical_in_task_name_escalates :
  check_exitcodes
    ["WARNING - 'CRITICAL job': The task did not run properly. Task location: \. Result code: 0x1"]
  = Exit
      ["WARNING - 'CRITICAL job': The task did not run properly. Task location: \. Result code: 0x1";
       "WARNING - 'CRITICAL job': The task did not run properly. Task location: \. Result code: 0x1"]
      2
  /\ main elements no_options critical_named_block
     = Exit
         ["WARNING - 'CRITICAL job': The task did not run properly. Task location: \. Result code: 0x1";
          "WARNING - 'CRITICAL job': The task did not run properly. Task location: \. Result code: 0x1"]
         2.
Proof. split; vm_compute; reflexivity. Qed.

(** What [check_exitcodes] prints in general: the lines that contain
    CRITICAL, then those that contain WARNING, then those that contain
    "OK -", each selection in the order of the result list; a line that
    contains several of the words is printed once for each. *)
Lemma printed_lines_by_substring rl :
  printed_lines rl
  = List.filter (Py.contains "CRITICAL") rl
    ++ List.filter (Py.contains "WARNING") rl
    ++ List.filter (Py.contains "OK -") rl.
Proof.
  assert (Hnone : forall (f : string -> bool) (l : list string),
            existsb f l = false -> List.filter f l = []).
  { intros f l. induction l as [|x l IH]; cbn; [reflexivity|].
    destruct (f x); cbn; [discriminate|exact IH]. }
  unfold printed_lines, any_contains.
  repeat match goal with
         | |- context [if existsb ?f rl then _ else _] =>
             let H := fresh in
             destruct (existsb f rl) eqn:H;
             [|rewrite (Hnone _ _ H)]
         end; reflexivity.
Qed.

Lemma exit_status_by_substring rl :
  exit_status rl
  = if existsb (Py.contains "CRITICAL") rl then 2
    else if existsb (Py.contains "WARNING") rl then 1 else 0.
Proof. reflexivity. Qed.

(** ** Results equal to zero *)

(** When the LastTaskResult field is the text "0": the schedule and the
    trigger decide, then the mode. *)
Lemma internal_task_check_zero_text opts d task_name task_include self
    task_location task_nextruntime :
  d !! "TaskPath" = Some task_location ->
  d !! "NextRunTime" = Some task_nextruntime ->
  d !! "LastTaskResult" = Some "0" ->
  Py.in_list "0x0" (ignore_resultcode opts) = false ->
  internal_task_check opts d task_name task_include self
  = Ok (tt, mkSelf (include_taskname_list self)
              (result_list self
               ++ (if negb (ignore_nextruntime opts)
                      && (Py.is_empty task_nextruntime
                          || String.eqb (trigger_of d) "False")
                   then ["WARNING - '" +:+ task_name
                         +:+ "' is not scheduled or no trigger. Task location: "
                         +:+ task_location +:+ "."]
                   else if task_include
                   then ["OK - '" +:+ task_name
                         +:+ "': The task did run properly. Task location: "
                         +:+ task_location +:+ ". Result code: 0x0"]
                   else []))).
Proof.
  intros Hpath Hnext Hlast Hign. destruct self as [incl rl].
  unfold internal_task_check, trigger_of. unfold_M. unfold Py.getitem, Py.int.
  rewrite Hpath, Hnext, Hlast.
  change (Py.parse_int "0") with (Some 0). cbv beta iota.
  change (result_code_hex_converter 0) with "0x0".
  rewrite Hign. change (String.eqb "0" "0") with true.
  destruct (d !! "Enabled") as [tr|]; cbn [default negb].
  all: destruct (ignore_nextruntime opts), task_include,
         (Py.is_empty task_nextruntime);
       cbn -[String.eqb String.append];
       try match goal with
           | |- context [String.eqb ?a "False"] =>
               destruct (String.eqb a "False")
           end;
       rewrite ?app_nil_r; reflexivity.
Qed.

(** The zero test of [internal_task_check] reads the text of the field.
    On the numeral "0" it is the test of the integer; a text such as "00",
    which is no numeral that the host prints, is read by [int] as zero and
    still takes the WARNING branch. *)
Example zero_test_reads_the_text :
  Py.int "00" = Ok 0
  /\ main elements (mkOptions ["Backup"] [] [] false) double_zero_block
     = Exit ["WARNING - 'Backup': The task did run properly. Task location: \. Result code: 0x0"] 1.
Proof. split; vm_compute; reflexivity. Qed.

(** ** The list of ignored codes *)

Lemma has_upper_app a b : has_upper (a +:+ b) = has_upper a || has_upper b.
Proof.
  induction a as [|c a IH]; [reflexivity|].
  change (String c a +:+ b) with (String c (a +:+ b)).
  cbn [has_upper]. rewrite IH. apply orb_assoc.
Qed.

Lemma has_upper_hex_digits u :
  has_upper (NilEmpty.string_of_uint u) = false.
Proof. induction u; cbn [NilEmpty.string_of_uint has_upper]; auto. Qed.

(** [hex] writes lower-case digits only. *)
Lemma has_upper_hex n : has_upper (Py.hex n) = false.
Proof.
  unfold Py.hex. rewrite !has_upper_app, has_upper_hex_digits.
  destruct (n <? 0); reflexivity.
Qed.

Lemma in_list_app x l1 l2 :
  Py.in_list x (l1 ++ l2) = Py.in_list x l1 || Py.in_list x l2.
Proof. apply existsb_app. Qed.

Lemma in_list_upper_inert n codes1 c codes2 :
  has_upper c = true ->
  Py.in_list (Py.hex n) (codes1 ++ c :: codes2)
  = Py.in_list (Py.hex n) (codes1 ++ codes2).
Proof.
  intros Hc. rewrite !in_list_app. f_equal.
  unfold Py.in_list. cbn [existsb].
  destruct (String.eqb_spec (Py.hex n) c) as [<-|_]; [|reflexivity].
  rewrite has_upper_hex in Hc. discriminate.
Qed.

(** Only the test of membership reads the list of ignored codes. *)
Lemma task_lines_ignore_ext included ignored codes codes' nr incl d :
  (forall n, Py.in_list (Py.hex n) codes = Py.in_list (Py.hex n) codes') ->
  task_lines (mkOptions included ignored codes nr) incl d
  = task_lines (mkOptions included ignored codes' nr) incl d.
Proof.
  intros Hext.
  unfold task_lines, check_one_task, internal_task_check. unfold_M.
  unfold Py.getitem, Py.int, result_code_hex_converter.
  cbn [ignore_resultcode ignore_taskname ignore_nextruntime
       include_taskname_list].
  destruct (d !! "TaskName"); [|reflexivity].
  destruct (0 <? length incl)%nat;
    match goal with
    | |- context [Py.in_list ?n ?l] => destruct (Py.in_list n l)
    end; cbn [negb]; try reflexivity.
  all: destruct (d !! "TaskPath"); [|reflexivity].
  all: destruct (d !! "NextRunTime"); [|reflexivity].
  all: destruct (d !! "LastTaskResult") as [raw|]; [|reflexivity].
  all: match goal with
       | |- context [Py.parse_int ?r] => destruct (Py.parse_int r)
       end; [|reflexivity].
  all: rewrite Hext; reflexivity.
Qed.

Lemma all_task_lines_ignore_ext included ignored codes codes' nr incl tl :
  (forall n, Py.in_list (Py.hex n) codes = Py.in_list (Py.hex n) codes') ->
  all_task_lines (mkOptions included ignored codes nr) incl tl
  = all_task_lines (mkOptions included ignored codes' nr) incl tl.
Proof.
  intros Hext. induction tl as [|d tl IH]; [reflexivity|].
  rewrite !all_task_lines_cons, IH.
  rewrite (task_lines_ignore_ext _ _ _ _ _ _ _ Hext). reflexivity.
Qed.

(** C6, as the code has it.  The test of membership is an exact comparison
    with the lower-case text that [hex] produces: an ignored code written
    with an upper-case letter matches no record, and a run with it prints
    what the run without it prints. *)
Theorem upper_case_ignored_code_is_inert order included ignored codes1 c
    codes2 nr perfdata :
  has_upper c = true ->
  main order (mkOptions included ignored (codes1 ++ c :: codes2) nr) perfdata
  = main order (mkOptions included ignored (codes1 ++ codes2) nr) perfdata.
Proof.
  intros Hc. rewrite !main_run. cbn [include_taskname].
  destruct (parsed_tasks perfdata) as [tl|e]; [|reflexivity]. cbv zeta.
  destruct (task_names tl); [|reflexivity].
  rewrite (all_task_lines_ignore_ext _ _ (codes1 ++ c :: codes2)
             (codes1 ++ codes2)); [reflexivity|].
  intros n. apply in_list_upper_inert, Hc.
Qed.

Lemma upper_case_ignored_code_is_inert_witness :
  main elements (mkOptions [] [] ([] ++ "0X41303" :: []) false)
       not_yet_run_block
  = main elements (mkOptions [] [] ([] ++ []) false) not_yet_run_block.
Proof.
  apply (upper_case_ignored_code_is_inert elements [] [] [] "0X41303" []
           false not_yet_run_block).
  vm_compute. reflexivity.
Defined.

(** C6, as stated, fails: the task with code 0x41303 is skipped when the
    code is ignored as "0x41303" and reported when it is ignored as
    "0X41303"; the task with code 0x8007042b is skipped when the code is
    ignored as "0x8007042b" and reported when it is ignored as
    "0x8007042B". *)
Lemma ignored_code_is_case_sensitive :
  main elements (mkOptions [] [] ["0x41303"] false) not_yet_run_block
  = Exit [] 0
  /\ main elements (mkOptions [] [] ["0X41303"] false) not_yet_run_block
     = Exit ["WARNING - 'Backup': The task has not yet run. Task location: \. Result code: 0x41303"] 1
  /\ main elements (mkOptions [] [] ["0x8007042b"] false) terminated_block
     = Exit [] 0
  /\ main elements (mkOptions [] [] ["0x8007042B"] false) terminated_block
     = Exit ["WARNING - 'Sync': The process terminated unexpectedly. Task location: \. Result code: 0x8007042b"] 1.
Proof. repeat split; vm_compute; reflexivity. Qed.

(** ** Runs and the order of enumeration of a set *)

Lemma existsb_Permutation {A} (f : A -> bool) l1 l2 :
  Permutation l1 l2 -> existsb f l1 = existsb f l2.
Proof.
  induction 1 as [|x l1 l2 _ IH|x y l|l1 l2 l3 _ IH1 _ IH2]; cbn.
  - reflexivity.
  - rewrite IH. reflexivity.
  - destruct (f x), (f y); reflexivity.
  - congruence.
Qed.

Lemma filter_Permutation_bool {A} (f : A -> bool) l1 l2 :
  Permutation l1 l2 -> Permutation (List.filter f l1) (List.filter f l2).
Proof.
  induction 1 as [|x l1 l2 _ IH|x y l|l1 l2 l3 _ IH1 _ IH2]; cbn.
  - constructor.
  - destruct (f x); [constructor|]; exact IH.
  - destruct (f x), (f y); try reflexivity. constructor.
  - etransitivity; eassumption.
Qed.

Lemma exit_status_Permutation l1 l2 :
  Permutation l1 l2 -> exit_status l1 = exit_status l2.
Proof.
  intros Hp. unfold exit_status, any_contains.
  rewrite !(existsb_Permutation _ _ _ Hp). reflexivity.
Qed.

Lemma printed_lines_Permutation l1 l2 :
  Permutation l1 l2 -> Permutation (printed_lines l1) (printed_lines l2).
Proof.
  intros Hp. unfold printed_lines, any_contains.
  rewrite !(existsb_Permutation _ _ _ Hp).
  repeat apply Permutation_app;
    match goal with
    | |- context [if ?b then _ else _] => destruct b
    end; auto using filter_Permutation_bool.
Qed.

Lemma valid_order_elements : valid_order elements.
Proof. intros S. reflexivity. Qed.

Lemma valid_order_reverse_elements : valid_order reverse_elements.
Proof. intros S. unfold reverse_elements. apply reverse_Permutation. Qed.

(** C9, as the code has it.  Two runs on the same text with the same
    options end alike up to the order in which the set of missing names is
    enumerated: either both raise the same exception, or both exit with the
    same status, their result lists are the missing-name warnings, in two
    orders, followed by the same lines of the records, and the printed
    lines of one run are a rearrangement of those of the other. *)
Theorem runs_agree_up_to_set_order order1 order2 opts perfdata :
  valid_order order1 ->
  valid_order order2 ->
  (exists e, main order1 opts perfdata = Uncaught e
             /\ main order2 opts perfdata = Uncaught e)
  \/ (exists missing1 missing2 lines status,
        Permutation missing1 missing2
        /\ main order1 opts perfdata
           = Exit (printed_lines (map missing_message missing1 ++ lines)) status
        /\ main order2 opts perfdata
           = Exit (printed_lines (map missing_message missing2 ++ lines)) status
        /\ Permutation
             (printed_lines (map missing_message missing1 ++ lines))
             (printed_lines (map missing_message missing2 ++ lines))).
Proof.
  intros Ho1 Ho2. rewrite !main_run.
  destruct (parsed_tasks perfdata) as [tl|e]; [|left; eauto]. cbv zeta.
  destruct (task_names tl) as [names|]; [|left; eauto].
  destruct (all_task_lines _ _ tl) as [lines|e]; [|left; eauto].
  right.
  set (D := list_to_set (map Py.strip (include_taskname opts))
            ∖ list_to_set names).
  assert (Hp : Permutation (order1 D) (order2 D))
    by (rewrite (Ho1 D), (Ho2 D); reflexivity).
  assert (Hl : Permutation (map missing_message (order1 D) ++ lines)
                           (map missing_message (order2 D) ++ lines))
    by (apply Permutation_app_tail, Permutation_map, Hp).
  exists (order1 D), (order2 D), lines,
    (exit_status (map missing_message (order1 D) ++ lines)).
  split; [exact Hp|]. split; [reflexivity|].
  split; [|apply printed_lines_Permutation, Hl].
  unfold check_exitcodes. f_equal. symmetry.
  apply exit_status_Permutation, Hl.
Qed.

Lemma runs_agree_up_to_set_order_witness :
  (exists e, main elements (mkOptions ["Backup"; "Alpha"; "Beta"] [] [] false)
                  not_yet_run_block = Uncaught e
             /\ main reverse_elements
                  (mkOptions ["Backup"; "Alpha"; "Beta"] [] [] false)
                  not_yet_run_block = Uncaught e)
  \/ (exists missing1 missing2 lines status,
        Permutation missing1 missing2
        /\ main elements (mkOptions ["Backup"; "Alpha"; "Beta"] [] [] false)
                not_yet_run_block
           = Exit (printed_lines (map missing_message missing1 ++ lines)) status
        /\ main reverse_elements
                (mkOptions ["Backup"; "Alpha"; "Beta"] [] [] false)
                not_yet_run_block
           = Exit (printed_lines (map missing_message missing2 ++ lines)) status
        /\ Permutation
             (printed_lines (map missing_message missing1 ++ lines))
             (printed_lines (map missing_message missing2 ++ lines))).
Proof.
  apply (runs_agree_up_to_set_order elements reverse_elements
           (mkOptions ["Backup"; "Alpha"; "Beta"] [] [] false)
           not_yet_run_block).
  - intros S. reflexivity.
  - intros S. unfold reverse_elements. apply reverse_Permutation.
Defined.

(** C9, as stated, fails: with the names Alpha and Beta included and
    absent from the text, two enumerations of the same set of missing
    names give the two warnings in opposite orders. *)
Lemma set_order_changes_output :
  valid_order elements
  /\ valid_order reverse_elements
  /\ main elements (mkOptions ["Backup"; "Alpha"; "Beta"] [] [] false)
          not_yet_run_block
     = Exit ["WARNING - 'Alpha' task can not be found. Please check task name!";
             "WARNING - 'Beta' task can not be found. Please check task name!";
             "WARNING - 'Backup': The task has not yet run. Task location: \. Result code: 0x41303"]
            1
  /\ main reverse_elements (mkOptions ["Backup"; "Alpha"; "Beta"] [] [] false)
          not_yet_run_block
     = Exit ["WARNING - 'Beta' task can not be found. Please check task name!";
             "WARNING - 'Alpha' task can not be found. Please check task name!";
             "WARNING - 'Backup': The task has not yet run. Task location: \. Result code: 0x41303"]
            1.
Proof.
  split; [exact valid_order_elements|].
  split; [exact valid_order_reverse_elements|].
  split; vm_compute; reflexivity.
Qed.

(** ** Included names without a record *)

Lemma last_char_app a b :
  last_char (a +:+ b)
  = match last_char b with Some c => Some c | None => last_char a end.
Proof.
  induction a as [|c a IH].
  - change ("" +:+ b) with b. destruct (last_char b); reflexivity.
  - change (String c a +:+ b) with (String c (a +:+ b)).
    cbn [last_char]. rewrite IH.
    destruct (last_char b); [reflexivity|]. reflexivity.
Qed.

Lemma last_char_hex_digits u :
  last_char (NilEmpty.string_of_uint u) <> Some "!"%char.
Proof.
  induction u; cbn [NilEmpty.string_of_uint last_char];
    try destruct (last_char (NilEmpty.string_of_uint u)); congruence.
Qed.

Lemma last_char_hex n : last_char (Py.hex n) <> Some "!"%char.
Proof.
  unfold Py.hex. rewrite !last_char_app.
  pose proof (last_char_hex_digits (N.to_hex_uint (Z.abs_N n))) as Hd.
  destruct (last_char (NilEmpty.string_of_uint _)); [exact Hd|].
  cbn. discriminate.
Qed.

Lemma last_char_output_message prefix task_name task_result_string
    task_location n :
  last_char (prefix +:+ output_message_of task_name task_result_string
                          task_location (Py.hex n))
  <> Some "!"%char.
Proof.
  unfold output_message_of. rewrite !last_char_app.
  pose proof (last_char_hex n) as Hh.
  destruct (last_char (Py.hex n)); [exact Hh|].
  cbn. discriminate.
Qed.

Lemma last_char_not_scheduled task_name task_location :
  last_char (not_scheduled_message task_name task_location)
  <> Some "!"%char.
Proof.
  unfold not_scheduled_message. rewrite !last_char_app. cbn. discriminate.
Qed.

Lemma last_char_missing name :
  last_char (missing_message name) = Some "!"%char.
Proof. unfold missing_message. rewrite !last_char_app. reflexivity. Qed.

(** No line added for a record is a missing-name warning. *)
Lemma task_lines_no_bang opts incl d ls :
  task_lines opts incl d = Ok ls ->
  Forall (fun line => last_char line <> Some "!"%char) ls.
Proof.
  unfold task_lines, check_one_task, internal_task_check. unfold_M.
  unfold Py.getitem, Py.int, result_code_hex_converter.
  cbn [include_taskname_list].
  repeat (match goal with
          | |- context [match ?x with _ => _ end] =>
              lazymatch x with
              | context [match _ with _ => _ end] => fail
              | _ => destruct x eqn:?
              end
          end; cbn [include_taskname_list result_list app negb];
          try discriminate).
  all: intros [= <-]; repeat constructor.
  all: first [apply last_char_output_message | apply last_char_not_scheduled].
Qed.

Lemma all_task_lines_no_bang opts incl tl ls :
  all_task_lines opts incl tl = Ok ls ->
  Forall (fun line => last_char line <> Some "!"%char) ls.
Proof.
  revert ls. induction tl as [|d tl IH]; intros ls.
  - intros [= <-]. constructor.
  - rewrite all_task_lines_cons.
    destruct (task_lines opts incl d) as [l1|] eqn:Hd; [|discriminate].
    destruct (all_task_lines opts incl tl) as [l2|]; [|discriminate].
    intros [= <-]. apply Forall_app. split.
    + eapply task_lines_no_bang; eassumption.
    + apply IH. reflexivity.
Qed.

Lemma task_lines_well_formed opts incl d :
  well_formed_record d = true -> exists ls, task_lines opts incl d = Ok ls.
Proof.
  unfold well_formed_record, has_key, has_integer_result.
  unfold task_lines, check_one_task, internal_task_check. unfold_M.
  unfold Py.getitem, Py.int. cbn [include_taskname_list].
  repeat (match goal with
          | |- context [match ?x with _ => _ end] =>
              lazymatch x with
              | context [match _ with _ => _ end] => fail
              | _ => destruct x eqn:?
              end
          end; cbn [include_taskname_list result_list app negb andb];
          try discriminate; eauto).
Qed.

Lemma well_formed_tasks_run opts incl tl :
  forallb well_formed_record tl = true ->
  exists names ls,
    task_names tl = Some names /\ all_task_lines opts incl tl = Ok ls.
Proof.
  unfold task_names.
  induction tl as [|d tl IH]; cbn [forallb]; [exists [], []; split; reflexivity|].
  intros [Hd Htl]%andb_prop.
  destruct (IH Htl) as (names & ls & Hn & Hl).
  destruct (task_lines_well_formed opts incl d Hd) as [l1 Hl1].
  unfold well_formed_record, has_key in Hd.
  destruct (d !! "TaskName") as [name|] eqn:Hname; [|discriminate].
  exists (name :: names), (l1 ++ ls). split.
  - cbn. rewrite Hname. cbn. rewrite Hn. reflexivity.
  - rewrite all_task_lines_cons, Hl1, Hl. reflexivity.
Qed.

Lemma append_length a b :
  String.length (a +:+ b) = (String.length a + String.length b)%nat.
Proof.
  induction a as [|c a IH]; [reflexivity|].
  change (String c a +:+ b) with (String c (a +:+ b)).
  cbn [String.length]. rewrite IH. reflexivity.
Qed.

Lemma append_inv_tail a b s : a +:+ s = b +:+ s -> a = b.
Proof.
  revert b. induction a as [|c a IH]; intros [|c' b] Heq.
  - reflexivity.
  - apply (f_equal String.length) in Heq. rewrite !append_length in Heq.
    cbn in Heq. lia.
  - apply (f_equal String.length) in Heq. rewrite !append_length in Heq.
    cbn in Heq. lia.
  - change (String c (a +:+ s) = String c' (b +:+ s)) in Heq.
    injection Heq as -> Heq. f_equal. apply IH, Heq.
Qed.

Lemma missing_message_inj a b :
  missing_message a = missing_message b -> a = b.
Proof.
  unfold missing_message. intros Heq.
  apply (inj (String.append _)) in Heq.
  eapply append_inv_tail, Heq.
Qed.

Lemma NoDup_map_missing l :
  List.NoDup l -> List.NoDup (map missing_message l).
Proof.
  induction 1 as [|x l Hx _ IH]; cbn [map]; constructor; [|exact IH].
  intros (y & Heq & Hy)%in_map_iff.
  apply missing_message_inj in Heq. subst y. contradiction.
Qed.

Lemma valid_order_NoDup order (S : gset string) :
  valid_order order -> List.NoDup (order S).
Proof.
  intros Ho. apply (Permutation_NoDup (l := elements S)).
  - symmetry. apply Ho.
  - apply NoDup_ListNoDup, NoDup_elements.
Qed.

Lemma valid_order_In order included names name :
  valid_order order ->
  In name (order (list_to_set included ∖ list_to_set names))
  <-> In name included /\ ~ In name names.
Proof.
  intros Ho. rewrite <- !list_elem_of_In.
  rewrite (Ho _), elem_of_elements, elem_of_difference,
    !elem_of_list_to_set.
  reflexivity.
Qed.

Lemma in_list_In x l : Py.in_list x l = true <-> In x l.
Proof.
  unfold Py.in_list. rewrite existsb_exists. split.
  - intros (y & Hy & ->%String.eqb_eq). exact Hy.
  - intros Hx. exists x. split; [exact Hx|apply String.eqb_refl].
Qed.

(** ** The result list of a run *)

Lemma main_of_result_list order opts perfdata :
  main order opts perfdata
  = match run_result_list order opts perfdata with
    | Ok rl => check_exitcodes rl
    | Raise e => Uncaught e
    end.
Proof.
  unfold main, run_result_list.
  match goal with
  | |- match ?r with _ => _ end = _ => destruct r as [[[] self]|e]
  end; reflexivity.
Qed.

Lemma run_result_list_run order opts perfdata :
  run_result_list order opts perfdata
  = match parsed_tasks perfdata with
    | Raise e => Raise e
    | Ok tl =>
        let incl := map Py.strip (include_taskname opts) in
        match task_names tl with
        | None => Raise (KeyError "TaskName")
        | Some names =>
            match all_task_lines opts incl tl with
            | Ok ls =>
                Ok (map missing_message
                        (order (list_to_set incl ∖ list_to_set names)) ++ ls)
            | Raise e => Raise e
            end
        end
    end.
Proof.
  unfold run_result_list. unfold mbind, M_bind, bind.
  rewrite get_windows_task_run.
  destruct (parsed_tasks perfdata) as [tl|e]; [|reflexivity].
  cbn [result_list init_self]. rewrite check_task_details_run.
  cbv zeta. destruct (task_names tl); [|reflexivity].
  destruct (all_task_lines _ _ tl); reflexivity.
Qed.

Lemma prefix_contains p s : String.prefix p s = true -> Py.contains p s = true.
Proof. intros Hp. destruct s; cbn [Py.contains]; rewrite Hp; reflexivity. Qed.

(** The lines of one record: none or one, a WARNING line or, with included
    names only, an OK line. *)
Lemma task_lines_shape opts incl d ls :
  task_lines opts incl d = Ok ls ->
  (length ls <= 1)%nat
  /\ Forall (fun line => is_warning_line line = true
                         \/ (is_ok_line line = true
                             /\ include_mode incl = true)) ls.
Proof.
  unfold task_lines, check_one_task, internal_task_check, include_mode.
  unfold_M. unfold Py.getitem, Py.int, result_code_hex_converter.
  cbn [include_taskname_list].
  repeat (match goal with
          | |- context [match ?x with _ => _ end] =>
              lazymatch x with
              | context [match _ with _ => _ end] => fail
              | _ => destruct x eqn:?
              end
          end; cbn [include_taskname_list result_list app negb];
          try discriminate).
  all: intros [= <-]; split; [cbn; lia|].
  all: repeat apply List.Forall_cons; try apply List.Forall_nil.
  all: first [ left; reflexivity | right; split; reflexivity ].
Qed.

Lemma all_task_lines_shape opts incl tl ls :
  all_task_lines opts incl tl = Ok ls ->
  (length ls <= length tl)%nat
  /\ Forall (fun line => is_warning_line line = true
                         \/ (is_ok_line line = true
                             /\ include_mode incl = true)) ls.
Proof.
  revert ls. induction tl as [|d tl IH]; intros ls.
  - intros [= <-]. split; [reflexivity|constructor].
  - rewrite all_task_lines_cons.
    destruct (task_lines opts incl d) as [l1|] eqn:Hd; [|discriminate].
    destruct (all_task_lines opts incl tl) as [l2|]; [|discriminate].
    intros [= <-].
    destruct (task_lines_shape _ _ _ _ Hd) as [Hlen1 Hall1].
    destruct (IH l2 eq_refl) as [Hlen2 Hall2].
    split; [rewrite length_app; cbn [length]; lia|].
    apply Forall_app. split; assumption.
Qed.

Lemma missing_message_is_warning name :
  is_warning_line (missing_message name) = true.
Proof. reflexivity. Qed.

Lemma prefix_app_l a b s :
  String.prefix (a +:+ b) s = true -> String.prefix a s = true.
Proof.
  revert s. induction a as [|c a IH]; intros s; [intros _; apply prefix_empty|].
  change (String c a +:+ b) with (String c (a +:+ b)).
  destruct s as [|c' s]; cbn [String.prefix]; [discriminate|].
  destruct (ascii_dec c c'); [apply IH|discriminate].
Qed.

Lemma warning_line_contains line :
  is_warning_line line = true -> Py.contains "WARNING" line = true.
Proof.
  intros H. apply prefix_contains, (prefix_app_l "WARNING" " - "), H.
Qed.

Lemma ok_line_contains line :
  is_ok_line line = true -> Py.contains "OK -" line = true.
Proof.
  intros H. apply prefix_contains, (prefix_app_l "OK -" " "), H.
Qed.

(** X1. Every line that a run collects starts with "WARNING - " or with
    "OK - ", and without included names every line starts with
    "WARNING - ": successful tasks are not reported in exclude mode. *)
Theorem result_lines_are_prefixed order opts perfdata rl :
  run_result_list order opts perfdata = Ok rl ->
  Forall (fun line => is_warning_line line = true \/ is_ok_line line = true) rl
  /\ (include_taskname opts = [] ->
      Forall (fun line => is_warning_line line = true) rl).
Proof.
  rewrite run_result_list_run.
  destruct (parsed_tasks perfdata) as [tl|]; [|discriminate]. cbv zeta.
  destruct (task_names tl) as [names|]; [|discriminate].
  destruct (all_task_lines _ _ tl) as [ls|] eqn:Hls; [|discriminate].
  intros [= <-].
  destruct (all_task_lines_shape _ _ _ _ Hls) as [_ Hall].
  split.
  - apply Forall_app. split.
    + apply List.Forall_forall. intros line (n & <- & _)%in_map_iff.
      left. apply missing_message_is_warning.
    + eapply List.Forall_impl; [|exact Hall]. cbn. tauto.
  - intros Hno. rewrite Hno in Hall. cbn in Hall.
    apply Forall_app. split.
    + apply List.Forall_forall. intros line (n & <- & _)%in_map_iff.
      apply missing_message_is_warning.
    + eapply List.Forall_impl; [|exact Hall]. cbn.
      intros line [Hw|[_ Hf]]; [exact Hw|discriminate].
Qed.

Lemma result_lines_are_prefixed_witness :
  Forall (fun line => is_warning_line line = true \/ is_ok_line line = true)
    ["OK - 'Backup': The task did run properly. Task location: \. Result code: 0x0"]
  /\ (include_taskname (mkOptions ["Backup"] [] [] false) = [] ->
      Forall (fun line => is_warning_line line = true)
        ["OK - 'Backup': The task did run properly. Task location: \. Result code: 0x0"]).
Proof.
  apply (result_lines_are_prefixed elements (mkOptions ["Backup"] [] [] false)
           succeeded_block).
  vm_compute. reflexivity.
Defined.

(** X2. Every collected line is printed and every printed line is a
    collected line: [check_exitcodes] loses no line of a run and invents
    none. *)
Theorem every_result_line_is_printed order opts perfdata rl :
  run_result_list order opts perfdata = Ok rl ->
  forall line, In line (printed_lines rl) <-> In line rl.
Proof.
  intros Hrun line.
  destruct (result_lines_are_prefixed _ _ _ _ Hrun) as [Hall _].
  rewrite List.Forall_forall in Hall.
  rewrite printed_lines_by_substring, !in_app_iff, !filter_In.
  split; [tauto|]. intros Hin.
  destruct (Hall _ Hin) as [Hw|Ho].
  - right. left. split; [exact Hin|apply warning_line_contains, Hw].
  - right. right. split; [exact Hin|apply ok_line_contains, Ho].
Qed.

Lemma every_result_line_is_printed_witness :
  In "OK - 'Backup': The task did run properly. Task location: \. Result code: 0x0"
     (printed_lines
        ["OK - 'Backup': The task did run properly. Task location: \. Result code: 0x0"])
  <-> In "OK - 'Backup': The task did run properly. Task location: \. Result code: 0x0"
         ["OK - 'Backup': The task did run properly. Task location: \. Result code: 0x0"].
Proof.
  apply (every_result_line_is_printed elements
           (mkOptions ["Backup"] [] [] false) succeeded_block).
  vm_compute. reflexivity.
Defined.

(** X3. Without included names a run that ends normally exits with status
    0 exactly when it prints nothing. *)
Theorem exclude_mode_silent_iff_ok order opts perfdata lines status :
  include_taskname opts = [] ->
  main order opts perfdata = Exit lines status ->
  status = 0 <-> lines = [].
Proof.
  intros Hno. rewrite main_of_result_list.
  destruct (run_result_list order opts perfdata) as [rl|] eqn:Hrun;
    [|discriminate].
  destruct (result_lines_are_prefixed _ _ _ _ Hrun) as [_ Hall].
  specialize (Hall Hno). unfold check_exitcodes. intros [= <- <-].
  destruct rl as [|line rl]; [split; reflexivity|].
  apply Forall_cons_1 in Hall as [Hw _].
  apply warning_line_contains in Hw.
  split.
  - unfold exit_status, any_contains. cbn [existsb]. rewrite Hw.
    rewrite orb_true_l. destruct (_ || _); discriminate.
  - rewrite printed_lines_by_substring. cbn [List.filter]. rewrite Hw.
    intros Hnil. apply app_eq_nil in Hnil as [_ Hnil].
    apply app_eq_nil in Hnil as [Hnil _]. discriminate.
Qed.

Lemma exclude_mode_silent_iff_ok_witness : 0 = 0 <-> @nil string = [].
Proof.
  apply (exclude_mode_silent_iff_ok elements no_options succeeded_block).
  - reflexivity.
  - vm_compute. reflexivity.
Defined.

(** X4. A run collects at most one line for each included name and one for
    each record. *)
Theorem result_list_length_bound order opts perfdata tl rl :
  valid_order order ->
  parsed_tasks perfdata = Ok tl ->
  run_result_list order opts perfdata = Ok rl ->
  (length rl <= length (include_taskname opts) + length tl)%nat.
Proof.
  intros Ho Hparse. rewrite run_result_list_run, Hparse. cbv zeta.
  destruct (task_names tl) as [names|]; [|discriminate].
  destruct (all_task_lines _ _ tl) as [ls|] eqn:Hls; [|discriminate].
  intros [= <-].
  destruct (all_task_lines_shape _ _ _ _ Hls) as [Hlen _].
  rewrite length_app, length_map.
  enough (length (order (list_to_set (map Py.strip (include_taskname opts))
                         ∖ list_to_set names))
          <= length (map Py.strip (include_taskname opts)))%nat as Hm
    by (rewrite length_map in Hm; lia).
  apply NoDup_incl_length; [apply valid_order_NoDup, Ho|].
  intros x Hx. apply (valid_order_In order _ names x Ho) in Hx. tauto.
Qed.

Lemma result_list_length_bound_witness :
  (length ["OK - 'Backup': The task did run properly. Task location: \. Result code: 0x0"]
   <= length (include_taskname (mkOptions ["Backup"] [] [] false))
      + length [first_task succeeded_block])%nat.
Proof.
  apply (result_list_length_bound elements (mkOptions ["Backup"] [] [] false)
           succeeded_block).
  - intros S. reflexivity.
  - vm_compute. reflexivity.
  - vm_compute. reflexivity.
Defined.

(** X5. [check_task_details] only appends: run on a state that already
    holds lines, it leaves them in place and adds after them what it adds
    to an empty list, and it raises in the same cases. *)
Theorem check_task_details_appends order opts tl incl rl :
  check_task_details order opts tl (mkSelf incl rl)
  = match check_task_details order opts tl (mkSelf incl []) with
    | Ok (_, self) => Ok (tt, mkSelf incl (rl ++ result_list self))
    | Raise e => Raise e
    end.
Proof.
  rewrite !check_task_details_run.
  destruct (task_names tl); [|reflexivity].
  destruct (all_task_lines opts incl tl); reflexivity.
Qed.

(** ** Selection of the records *)

Lemma task_lines_ignore_taskname_ext inc ign ign' codes nr incl d :
  incl <> [] ->
  task_lines (mkOptions inc ign codes nr) incl d
  = task_lines (mkOptions inc ign' codes nr) incl d.
Proof.
  intros Hne. destruct incl as [|x incl]; [contradiction|].
  unfold task_lines, check_one_task. unfold_M. unfold Py.getitem.
  destruct (d !! "TaskName"); reflexivity.
Qed.

(** X6. When names are included, the list of ignored names is not read:
    two runs that differ only in [--ignore-taskname] end alike. *)
Theorem ignore_taskname_inert_in_include_mode order inc ign ign' codes nr
    perfdata :
  inc <> [] ->
  main order (mkOptions inc ign codes nr) perfdata
  = main order (mkOptions inc ign' codes nr) perfdata.
Proof.
  intros Hne. rewrite !main_run. cbn [include_taskname].
  destruct (parsed_tasks perfdata) as [tl|]; [|reflexivity]. cbv zeta.
  destruct (task_names tl); [|reflexivity].
  assert (Hincl : map Py.strip inc <> [])
    by (destruct inc; [contradiction|discriminate]).
  replace (all_task_lines (mkOptions inc ign codes nr) (map Py.strip inc) tl)
    with (all_task_lines (mkOptions inc ign' codes nr) (map Py.strip inc) tl);
    [reflexivity|].
  induction tl as [|d tl IH]; [reflexivity|].
  rewrite !all_task_lines_cons, IH.
  rewrite (task_lines_ignore_taskname_ext inc ign' ign codes nr _ d Hincl).
  reflexivity.
Qed.

Lemma ignore_taskname_inert_in_include_mode_witness :
  main elements (mkOptions ["Backup"] ["Backup"] [] false) succeeded_block
  = main elements (mkOptions ["Backup"] [] [] false) succeeded_block.
Proof.
  apply (ignore_taskname_inert_in_include_mode elements ["Backup"]
           ["Backup"] [] [] false succeeded_block).
  discriminate.
Defined.

Lemma task_lines_unselected opts incl d :
  is_selected opts incl d = false -> task_lines opts incl d = Ok [].
Proof.
  unfold is_selected. destruct (d !! "TaskName") as [name|] eqn:Hname;
    [|discriminate].
  intros Hsel. unfold task_lines.
  rewrite (check_one_task_skipped opts d name (mkSelf incl []) Hname Hsel).
  reflexivity.
Qed.

(** X7. Records that are not selected (not included, or ignored by name)
    are never evaluated: the lines of the loop over the records, and the
    exception it may raise, are those of the loop over the selected records
    alone, whatever the other fields of the unselected records are. *)
Theorem unselected_records_are_not_evaluated opts incl tl :
  all_task_lines opts incl tl
  = all_task_lines opts incl (List.filter (is_selected opts incl) tl).
Proof.
  induction tl as [|d tl IH]; [reflexivity|].
  cbn [List.filter]. destruct (is_selected opts incl d) eqn:Hsel.
  - rewrite !all_task_lines_cons, IH. reflexivity.
  - rewrite all_task_lines_cons, (task_lines_unselected _ _ _ Hsel).
    rewrite <- IH. destruct (all_task_lines opts incl tl); reflexivity.
Qed.

(** ** The trigger and the schedule *)

Lemma task_lines_lookup_ext opts incl (d d' : gmap string string) :
  d !! "TaskName" = d' !! "TaskName" ->
  d !! "TaskPath" = d' !! "TaskPath" ->
  d !! "NextRunTime" = d' !! "NextRunTime" ->
  d !! "LastTaskResult" = d' !! "LastTaskResult" ->
  d !! "Enabled" = d' !! "Enabled" ->
  task_lines opts incl d = task_lines opts incl d'.
Proof.
  intros H1 H2 H3 H4 H5.
  unfold task_lines, check_one_task, internal_task_check. unfold_M.
  unfold Py.getitem. rewrite H1, H2, H3, H4, H5. reflexivity.
Qed.

(** X8. Only the text "False" in the Enabled field counts as a disabled
    trigger: a record with any other Enabled value gives the lines, or the
    exception, of the same record without an Enabled field. *)
Theorem enabled_other_than_False_is_enabled opts incl
    (d : gmap string string) v :
  v <> "False" ->
  task_lines opts incl (<["Enabled" := v]> d)
  = task_lines opts incl (delete "Enabled" d).
Proof.
  intros Hv.
  unfold task_lines, check_one_task, internal_task_check. unfold_M.
  unfold Py.getitem.
  rewrite !lookup_insert_eq, !lookup_delete_eq.
  rewrite !lookup_insert_ne, !lookup_delete_ne by discriminate.
  rewrite (proj2 (String.eqb_neq v "False") Hv).
  change (String.eqb "True" "False") with false.
  reflexivity.
Qed.

Lemma enabled_other_than_False_is_enabled_witness :
  task_lines (mkOptions ["Backup"] [] [] false) ["Backup"]
    (<["Enabled" := "false"]> (first_task succeeded_block))
  = task_lines (mkOptions ["Backup"] [] [] false) ["Backup"]
      (delete "Enabled" (first_task succeeded_block)).
Proof.
  apply (enabled_other_than_False_is_enabled
           (mkOptions ["Backup"] [] [] false) ["Backup"]
           (first_task succeeded_block) "false").
  discriminate.
Defined.

(** X9. With [--ignore-nextruntime] the values of the NextRunTime and
    Enabled fields have no effect on the lines of a record, but the
    NextRunTime field is still read: a selected record without it raises
    KeyError. *)
Theorem ignore_nextruntime_ignores_values opts incl
    (d : gmap string string) next next' enabled enabled' :
  ignore_nextruntime opts = true ->
  task_lines opts incl
    (<["NextRunTime" := next]> (<["Enabled" := enabled]> d))
  = task_lines opts incl
      (<["NextRunTime" := next']> (<["Enabled" := enabled']> d))
  /\ (forall task_name task_location,
        d !! "TaskName" = Some task_name ->
        selected opts incl task_name = true ->
        d !! "TaskPath" = Some task_location ->
        d !! "NextRunTime" = None ->
        task_lines opts incl d = Raise (KeyError "NextRunTime")).
Proof.
  intros Hflag. split.
  - unfold task_lines, check_one_task, internal_task_check. unfold_M.
    unfold Py.getitem. rewrite Hflag.
    rewrite !lookup_insert_eq.
    rewrite !(lookup_insert_ne _ "NextRunTime") by discriminate.
    rewrite !lookup_insert_eq.
    rewrite !(lookup_insert_ne _ "Enabled") by discriminate.
    reflexivity.
  - intros name loc Hname Hsel Hpath Hnext. unfold task_lines.
    rewrite (check_one_task_selected opts d name (mkSelf incl []) Hname Hsel).
    unfold internal_task_check. unfold_M. unfold Py.getitem.
    rewrite Hpath, Hnext. reflexivity.
Qed.

Lemma ignore_nextruntime_ignores_values_witness :
  task_lines (mkOptions [] [] [] true) []
    (<["NextRunTime" := ""]> (<["Enabled" := "False"]>
                               (first_task succeeded_block)))
  = task_lines (mkOptions [] [] [] true) []
      (<["NextRunTime" := "tomorrow"]> (<["Enabled" := "True"]>
                                         (first_task succeeded_block)))
  /\ (forall task_name task_location,
        first_task succeeded_block !! "TaskName" = Some task_name ->
        selected (mkOptions [] [] [] true) [] task_name = true ->
        first_task succeeded_block !! "TaskPath" = Some task_location ->
        first_task succeeded_block !! "NextRunTime" = None ->
        task_lines (mkOptions [] [] [] true) [] (first_task succeeded_block)
        = Raise (KeyError "NextRunTime")).
Proof.
  apply (ignore_nextruntime_ignores_values (mkOptions [] [] [] true) []
           (first_task succeeded_block) "" "tomorrow" "False" "True").
  reflexivity.
Defined.

(** ** The windows of seven lines *)

Lemma element_index_list_shift l c :
  element_index_list l (S c) = map S (element_index_list l c).
Proof.
  revert c. induction l as [|e l IH]; intros c; [reflexivity|].
  cbn [element_index_list]. rewrite map_app, IH.
  destruct (Py.contains "LastRunTime" e); reflexivity.
Qed.

Lemma windows_cons e l :
  full_task_list (e :: l)
  = (if Py.contains "LastRunTime" e then [firstn 7 (e :: l)] else [])
    ++ map (fun w => firstn 7 w)
         (map (fun i => skipn i l) (element_index_list l 0)).
Proof.
  unfold full_task_list, Py.slice. cbn [element_index_list].
  rewrite map_app, element_index_list_shift, !map_map. f_equal.
  - destruct (Py.contains "LastRunTime" e); [|reflexivity].
    cbn [map]. replace (0 + 7 - 0)%nat with 7%nat by lia. reflexivity.
  - apply map_ext. intros i.
    replace (S i + 7 - S i)%nat with 7%nat by lia. reflexivity.
Qed.

Lemma windows_tail l :
  full_task_list l
  = map (fun w => firstn 7 w) (map (fun i => skipn i l) (element_index_list l 0)).
Proof.
  unfold full_task_list, Py.slice. rewrite map_map. apply map_ext.
  intros i. replace (i + 7 - i)%nat with 7%nat by lia. reflexivity.
Qed.

(** X10. The windows that the parser cuts: there is one for each line
    that contains the label LastRunTime, in the order of the lines; each
    starts with its label line and has at most seven lines. *)
Theorem windows_start_at_label_lines lines :
  map (hd "") (full_task_list lines)
  = List.filter (Py.contains "LastRunTime") lines
  /\ Forall (fun w => (1 <= length w <= 7)%nat) (full_task_list lines).
Proof.
  induction lines as [|e l [IHh IHl]]; [split; [reflexivity|constructor]|].
  rewrite windows_cons, <- windows_tail. cbn [List.filter].
  destruct (Py.contains "LastRunTime" e); cbn [app map hd firstn].
  - split; [f_equal; exact IHh|].
    constructor; [|exact IHl].
    cbn [length]. pose proof (length_firstn 6 l) as Hf.
    change (@length string (firstn 6 l)) with (length (firstn 6 l)) in *.
    rewrite length_take in *. lia.
  - split; assumption.
Qed.

(** ** The dictionaries of the windows *)

Lemma split1_shape sep line :
  (exists a, Py.split1 sep line = [a]
             /\ Py.contains (String sep "") line = false)
  \/ (exists a b, Py.split1 sep line = [a; b]
                  /\ Py.contains (String sep "") line = true).
Proof.
  induction line as [|c r IH]; [left; exists ""; split; reflexivity|].
  cbn [Py.split1 Py.contains String.prefix].
  destruct (ascii_dec sep c) as [->|Hne].
  - rewrite Ascii.eqb_refl, prefix_empty. right. eauto.
  - rewrite (proj2 (Ascii.eqb_neq c sep)) by congruence.
    destruct IH as [(a & -> & Hc)|(a & b & -> & Hc)]; [left|right]; eauto.
Qed.

Lemma detail_of_has_colon line :
  has_colon line = true <-> is_Some (detail_of line).
Proof.
  unfold has_colon, detail_of.
  destruct (split1_shape ":" line) as [(a & -> & Hc)|(a & b & -> & Hc)];
    rewrite Hc; split; intros H; try discriminate; eauto.
  destruct H as [x Hx]. discriminate.
Qed.

Lemma store_detail_run d line self :
  store_detail d line self
  = match detail_of line with
    | Some (k, v) => Ok (<[k := v]> d, self)
    | None => Raise IndexError
    end.
Proof.
  unfold store_detail, detail_of.
  destruct (split1_shape ":" line) as [(a & -> & _)|(a & b & -> & _)];
    reflexivity.
Qed.

Lemma task_dict_of_run lines d self :
  task_dict_of lines d self
  = match mapM detail_of lines with
    | Some details => Ok (dict_of_details details d, self)
    | None => Raise IndexError
    end.
Proof.
  revert d. induction lines as [|line lines IH]; intros d; [reflexivity|].
  cbn [task_dict_of]. unfold mbind at 1, M_bind, bind.
  rewrite store_detail_run. cbn [mapM].
  destruct (detail_of line) as [[k v]|]; [|reflexivity].
  rewrite IH. cbn. destruct (mapM detail_of lines); reflexivity.
Qed.

Lemma full_task_dict_list_run windows self :
  full_task_dict_list windows self
  = match mapM (mapM detail_of) windows with
    | Some details =>
        Ok (map (fun kvs => dict_of_details kvs ∅) details, self)
    | None => Raise IndexError
    end.
Proof.
  revert self. induction windows as [|w ws IH]; intros self; [reflexivity|].
  cbn [full_task_dict_list]. unfold mbind at 1 2, M_bind, bind.
  rewrite task_dict_of_run. cbn [mapM].
  destruct (mapM detail_of w) as [kvs|]; [|reflexivity].
  rewrite IH. cbn. destruct (mapM (mapM detail_of) ws); reflexivity.
Qed.

Lemma parsed_tasks_run perfdata :
  parsed_tasks perfdata
  = match mapM (mapM detail_of) (full_task_list (perfdata_lines perfdata)) with
    | Some details => Ok (map (fun kvs => dict_of_details kvs ∅) details)
    | None => Raise IndexError
    end.
Proof.
  unfold parsed_tasks, get_windows_task, perfdata_lines.
  unfold mbind, M_bind, bind, set_include_taskname_list.
  rewrite full_task_dict_list_run.
  destruct (mapM _ _); reflexivity.
Qed.

Lemma mapM_detail_of_Some lines :
  forallb has_colon lines = true <-> is_Some (mapM detail_of lines).
Proof.
  rewrite mapM_is_Some, forallb_forall, List.Forall_forall.
  split; intros H x Hx; apply detail_of_has_colon, H, Hx.
Qed.

(** X11. The parser raises nothing but IndexError, and it raises it exactly
    when some line of some window has no colon; otherwise it returns one
    dictionary for each window. *)
Theorem parser_fails_on_colon_free_lines_only perfdata :
  if forallb (forallb has_colon) (full_task_list (perfdata_lines perfdata))
  then exists tl, parsed_tasks perfdata = Ok tl
                  /\ length tl
                     = length (full_task_list (perfdata_lines perfdata))
  else parsed_tasks perfdata = Raise IndexError.
Proof.
  rewrite parsed_tasks_run.
  set (windows := full_task_list (perfdata_lines perfdata)).
  destruct (forallb (forallb has_colon) windows) eqn:Hall.
  - assert (Hs : is_Some (mapM (mapM detail_of) windows)).
    { apply mapM_is_Some, List.Forall_forall. intros w Hw.
      apply mapM_detail_of_Some.
      rewrite forallb_forall in Hall. apply Hall, Hw. }
    destruct Hs as [details Hd]. rewrite Hd.
    eexists. split; [reflexivity|].
    rewrite length_map. symmetry. eapply length_mapM, Hd.
  - destruct (mapM (mapM detail_of) windows) as [details|] eqn:Hd;
      [|reflexivity].
    exfalso. apply Bool.not_true_iff_false in Hall. apply Hall.
    apply forallb_forall. intros w Hw. apply mapM_detail_of_Some.
    assert (Hs : is_Some (mapM (mapM detail_of) windows)) by eauto.
    rewrite mapM_is_Some, List.Forall_forall in Hs. apply Hs, Hw.
Qed.

(** ** Texts without a label *)

Lemma prefix_app_r w a b :
  String.prefix w a = true -> String.prefix w (a +:+ b) = true.
Proof.
  revert a. induction w as [|c w IH]; intros a; [intros _; apply prefix_empty|].
  destruct a as [|c' a]; cbn [String.prefix]; [discriminate|].
  change (String c' a +:+ b) with (String c' (a +:+ b)). cbn [String.prefix].
  destruct (ascii_dec c c'); [apply IH|discriminate].
Qed.

Lemma contains_cons w c r :
  Py.contains w r = true -> Py.contains w (String c r) = true.
Proof.
  intros H. cbn [Py.contains]. rewrite H.
  destruct (String.prefix w (String c r)); reflexivity.
Qed.

Lemma contains_app_r w a b :
  Py.contains w a = true -> Py.contains w (a +:+ b) = true.
Proof.
  induction a as [|c a IH].
  - cbn [Py.contains]. destruct (String.prefix w "") eqn:Hp; [|discriminate].
    intros _. apply prefix_contains.
    apply (prefix_app_r w "" b Hp).
  - change (String c a +:+ b) with (String c (a +:+ b)). cbn [Py.contains].
    destruct (String.prefix w (String c a)) eqn:Hp.
    + intros _. apply (prefix_app_r w (String c a) b) in Hp.
      change (String c a +:+ b) with (String c (a +:+ b)) in Hp.
      rewrite Hp. reflexivity.
    + intros Ha. rewrite (IH Ha).
      destruct (String.prefix w (String c (a +:+ b))); reflexivity.
Qed.

Lemma splitlines_linebreak c r :
  Py.is_linebreak c = true -> exists ls, Py.splitlines (String c r) = "" :: ls.
Proof.
  intros Hc. cbn [Py.splitlines]. rewrite Hc.
  destruct (Ascii.eqb c "013" && String.prefix (String "010" "") r) eqn:Hcr;
    [|eauto].
  apply andb_prop in Hcr as [_ Hp].
  destruct r as [|c' r']; [discriminate|]. cbn [String.prefix] in Hp.
  destruct (ascii_dec "010" c') as [<-|]; [|discriminate].
  cbn. eauto.
Qed.

Lemma splitlines_nil s : Py.splitlines s = [] -> s = "".
Proof.
  destruct s as [|c r]; [reflexivity|].
  destruct (Py.is_linebreak c) eqn:Hc.
  - destruct (splitlines_linebreak c r Hc) as [ls ->]. discriminate.
  - cbn [Py.splitlines]. rewrite Hc.
    destruct (Py.splitlines r); discriminate.
Qed.

Lemma splitlines_head s l ls :
  Py.splitlines s = l :: ls -> exists rest, s = l +:+ rest.
Proof.
  revert l ls. induction s as [|c r IH]; intros l ls; [discriminate|].
  destruct (Py.is_linebreak c) eqn:Hc.
  - destruct (splitlines_linebreak c r Hc) as [ls' ->].
    intros [= <- _]. exists (String c r). reflexivity.
  - cbn [Py.splitlines]. rewrite Hc.
    destruct (Py.splitlines r) as [|l0 ls0] eqn:Hr.
    + intros [= <- _]. apply splitlines_nil in Hr. subst r. exists "".
      reflexivity.
    + intros [= <- _]. destruct (IH l0 ls0 eq_refl) as [rest ->].
      exists rest. reflexivity.
Qed.

(** A word found in a line of a text is found in the text. *)
Lemma contains_splitlines w s line :
  In line (Py.splitlines s) ->
  Py.contains w line = true -> Py.contains w s = true.
Proof.
  revert line. induction s as [|c r IH]; intros line; [intros []|].
  destruct (Py.is_linebreak c) eqn:Hc.
  - cbn [Py.splitlines]. rewrite Hc.
    destruct (_ && _).
    + intros Hin Hw. apply contains_cons. eapply IH; eassumption.
    + intros [<-|Hin] Hw.
      * apply prefix_contains. cbn [Py.contains] in Hw.
        destruct w; [reflexivity|discriminate].
      * apply contains_cons. eapply IH; eassumption.
  - cbn [Py.splitlines]. rewrite Hc.
    destruct (Py.splitlines r) as [|l0 ls0] eqn:Hr.
    + intros [<-|[]] Hw. apply splitlines_nil in Hr. subst r. exact Hw.
    + intros [<-|Hin] Hw.
      * destruct (splitlines_head r l0 ls0 Hr) as [rest ->].
        apply (contains_app_r w (String c l0) rest Hw).
      * apply contains_cons. apply (IH line); [right; exact Hin|exact Hw].
Qed.

Lemma no_label_no_window lines :
  Forall (fun line => Py.contains "LastRunTime" line = false) lines ->
  full_task_list lines = [].
Proof.
  intros Hall. unfold full_task_list.
  replace (element_index_list lines 0) with (@nil nat); [reflexivity|].
  generalize 0%nat. induction Hall as [|e l He _ IH]; intros c; [reflexivity|].
  cbn [element_index_list]. rewrite He. apply IH.
Qed.

(** X12. A text in which the label LastRunTime does not occur (an empty
    answer of the remote host, say) has no record: the run collects one
    warning for each included name and nothing else, and without included
    names it prints nothing and exits with status 0. *)
Theorem text_without_label_has_no_record order opts perfdata :
  valid_order order ->
  Py.contains "LastRunTime" perfdata = false ->
  parsed_tasks perfdata = Ok []
  /\ run_result_list order opts perfdata
     = Ok (map missing_message
               (order (list_to_set (map Py.strip (include_taskname opts)))))
  /\ (include_taskname opts = [] -> main order opts perfdata = Exit [] 0).
Proof.
  intros Ho Hno.
  assert (Hw : full_task_list (perfdata_lines perfdata) = []).
  { apply no_label_no_window, List.Forall_forall. intros line Hin.
    unfold perfdata_lines in Hin. apply filter_In in Hin as [Hin _].
    destruct (Py.contains "LastRunTime" line) eqn:Hl; [|reflexivity].
    rewrite (contains_splitlines _ _ _ Hin Hl) in Hno. discriminate. }
  assert (Hp : parsed_tasks perfdata = Ok [])
    by (rewrite parsed_tasks_run, Hw; reflexivity).
  assert (Hr : run_result_list order opts perfdata
               = Ok (map missing_message
                      (order (list_to_set
                                (map Py.strip (include_taskname opts)))))).
  { rewrite run_result_list_run, Hp. cbn.
    rewrite app_nil_r, difference_empty_L. reflexivity. }
  split; [exact Hp|]. split; [exact Hr|].
  intros Hex. rewrite main_of_result_list, Hr, Hex. cbn [map list_to_set].
  pose proof (Ho ∅) as Hperm. rewrite elements_empty in Hperm.
  apply Permutation_nil_r in Hperm. rewrite Hperm. reflexivity.
Qed.

Lemma text_without_label_has_no_record_witness :
  parsed_tasks "Access is denied." = Ok []
  /\ run_result_list elements no_options "Access is denied."
     = Ok (map missing_message
               (elements (list_to_set (map Py.strip
                                         (include_taskname no_options))
                          : gset string)))
  /\ (include_taskname no_options = [] ->
      main elements no_options "Access is denied." = Exit [] 0).
Proof.
  apply (text_without_label_has_no_record elements no_options
           "Access is denied.").
  - intros S. reflexivity.
  - reflexivity.
Defined.

(** ** What the dictionaries hold *)

Lemma lstrip_head s c r : Py.lstrip s = String c r -> Py.is_space c = false.
Proof.
  induction s as [|c' s IH]; [discriminate|]. cbn [Py.lstrip].
  destruct (Py.is_space c') eqn:Hc; [exact IH|].
  intros [= <- _]. exact Hc.
Qed.

Lemma rstrip_idem s : Py.rstrip (Py.rstrip s) = Py.rstrip s.
Proof.
  induction s as [|c s IH]; [reflexivity|]. cbn [Py.rstrip].
  destruct (Py.is_space c && Py.is_empty (Py.rstrip s)) eqn:Hc; [reflexivity|].
  cbn [Py.rstrip]. rewrite IH, Hc. reflexivity.
Qed.

Lemma lstrip_rstrip_nonspace c r :
  Py.is_space c = false ->
  Py.lstrip (Py.rstrip (String c r)) = Py.rstrip (String c r).
Proof.
  intros Hc. cbn [Py.rstrip]. rewrite Hc. cbn [andb Py.lstrip].
  rewrite Hc. reflexivity.
Qed.

(** Trimming a trimmed string changes nothing. *)
Lemma strip_idem s : Py.strip (Py.strip s) = Py.strip s.
Proof.
  unfold Py.strip. destruct (Py.lstrip s) as [|c r] eqn:Hl; [reflexivity|].
  rewrite (lstrip_rstrip_nonspace c r (lstrip_head _ _ _ Hl)).
  apply rstrip_idem.
Qed.

Lemma detail_of_trimmed line k v :
  detail_of line = Some (k, v) -> Py.strip k = k /\ Py.strip v = v.
Proof.
  unfold detail_of.
  destruct (Py.split1 ":" line) as [|a [|b [|? ?]]]; try discriminate.
  intros [= <- <-]. split; apply strip_idem.
Qed.

Lemma dict_of_details_lookup details (d0 : gmap string string) k v :
  dict_of_details details d0 !! k = Some v ->
  In (k, v) details \/ d0 !! k = Some v.
Proof.
  revert d0. induction details as [|[k' v'] details IH]; intros d0.
  - cbn. auto.
  - cbn [dict_of_details fold_left fst snd]. intros H.
    destruct (IH _ H) as [Hin|Hd]; [left; right; exact Hin|].
    destruct (decide (k' = k)) as [->|Hne].
    + rewrite lookup_insert_eq in Hd. injection Hd as ->. left. left.
      reflexivity.
    + rewrite lookup_insert_ne in Hd by exact Hne. right. exact Hd.
Qed.

Lemma mapM_Some_In {A B} (f : A -> option B) l k y :
  mapM f l = Some k -> In y k -> exists x, In x l /\ f x = Some y.
Proof.
  intros H%mapM_Some_1.
  induction H as [|x z l k Hx _ IH]; [intros []|].
  intros [<-|Hin].
  - exists x. split; [left; reflexivity|exact Hx].
  - destruct (IH Hin) as (x' & Hx' & Hf). exists x'. split; [right|]; assumption.
Qed.

(** X13. In the dictionaries that the parser returns every label and every
    value is trimmed of surrounding white space. *)
Theorem parsed_entries_are_trimmed perfdata tl (d : gmap string string) k v :
  parsed_tasks perfdata = Ok tl ->
  In d tl ->
  d !! k = Some v ->
  Py.strip k = k /\ Py.strip v = v.
Proof.
  rewrite parsed_tasks_run.
  destruct (mapM (mapM detail_of) _) as [details|] eqn:Hd; [|discriminate].
  intros [= <-] (kvs & <- & Hkvs)%in_map_iff Hlook.
  apply dict_of_details_lookup in Hlook as [Hin|Hempty];
    [|rewrite lookup_empty in Hempty; discriminate].
  destruct (mapM_Some_In _ _ _ _ Hd Hkvs) as (w & _ & Hw).
  destruct (mapM_Some_In _ _ _ _ Hw Hin) as (line & _ & Hline).
  eapply detail_of_trimmed, Hline.
Qed.

Lemma parsed_entries_are_trimmed_witness :
  Py.strip "TaskName" = "TaskName" /\ Py.strip "Backup" = "Backup".
Proof.
  apply (parsed_entries_are_trimmed succeeded_block
           [first_task succeeded_block] (first_task succeeded_block)).
  - vm_compute. reflexivity.
  - left. reflexivity.
  - vm_compute. reflexivity.
Defined.

Lemma dict_of_details_app kvs1 kvs2 (d0 : gmap string string) :
  dict_of_details (kvs1 ++ kvs2) d0
  = dict_of_details kvs2 (dict_of_details kvs1 d0).
Proof. apply fold_left_app. Qed.

Lemma dict_of_details_other kvs (d0 : gmap string string) k :
  Forall (fun kv => kv.1 <> k) kvs ->
  dict_of_details kvs d0 !! k = d0 !! k.
Proof.
  intros Hall. revert d0.
  induction Hall as [|[k' v'] kvs Hk _ IH]; intros d0; [reflexivity|].
  cbn [dict_of_details fold_left fst snd]. cbn in Hk.
  change (fold_left _ kvs ?d) with (dict_of_details kvs d).
  rewrite IH, lookup_insert_ne by exact Hk. reflexivity.
Qed.

(** X14. The last line with a label decides its value.  In a window whose
    lines all have a colon, for a line [label:value] (the label without
    colon) after which no line has the same trimmed label, the dictionary
    of the window maps the trimmed label to the trimmed value, whatever
    the lines before are. *)
Theorem last_line_with_label_wins before label value after self :
  forallb has_colon before = true ->
  forallb has_colon after = true ->
  Py.contains ":" label = false ->
  Forall (fun line => forall v, detail_of line <> Some (Py.strip label, v))
         after ->
  exists d : gmap string string,
    task_dict_of (before ++ (label +:+ String ":" value) :: after) ∅ self
    = Ok (d, self)
    /\ d !! Py.strip label = Some (Py.strip value).
Proof.
  intros Hb Ha Hl Hafter.
  apply mapM_detail_of_Some in Hb as [kvs1 H1].
  apply mapM_detail_of_Some in Ha as [kvs2 H2].
  assert (Hline : detail_of (label +:+ String ":" value)
                  = Some (Py.strip label, Py.strip value))
    by (unfold detail_of; rewrite (split1_first_sep _ _ _ Hl); reflexivity).
  assert (Hall : mapM detail_of (before ++ (label +:+ String ":" value) :: after)
                 = Some (kvs1 ++ (Py.strip label, Py.strip value) :: kvs2)).
  { apply mapM_Some_2, Forall2_app; [apply mapM_Some_1, H1|].
    constructor; [exact Hline|apply mapM_Some_1, H2]. }
  rewrite task_dict_of_run, Hall. eexists. split; [reflexivity|].
  rewrite dict_of_details_app. cbn [dict_of_details fold_left fst snd].
  change (fold_left _ kvs2 ?d) with (dict_of_details kvs2 d).
  rewrite dict_of_details_other; [apply lookup_insert_eq|].
  apply List.Forall_forall. intros [k' v'] Hin Hk. cbn in Hk. subst k'.
  destruct (mapM_Some_In _ _ _ _ H2 Hin) as (line & Hline_in & Hd).
  rewrite List.Forall_forall in Hafter. exact (Hafter line Hline_in v' Hd).
Qed.

Lemma last_line_with_label_wins_witness :
  exists d : gmap string string,
    task_dict_of (["TaskName : Old"] ++ ("TaskName " +:+ String ":" " New")
                                        :: ["TaskPath : \"]) ∅ init_self
    = Ok (d, init_self)
    /\ d !! Py.strip "TaskName " = Some (Py.strip " New").
Proof.
  apply (last_line_with_label_wins ["TaskName : Old"] "TaskName " " New"
           ["TaskPath : \"] init_self).
  - reflexivity.
  - reflexivity.
  - reflexivity.
  - repeat constructor. intros v. vm_compute. discriminate.
Defined.

(** ** Result codes *)

Lemma hex_digits_inj u u' :
  NilEmpty.string_of_uint u = NilEmpty.string_of_uint u' -> u = u'.
Proof.
  intros H. apply (f_equal NilEmpty.uint_of_string) in H.
  rewrite !NilEmpty.usu in H. congruence.
Qed.

(** Two integers with the same hexadecimal code are equal. *)
Lemma hex_inj n m : Py.hex n = Py.hex m -> n = m.
Proof.
  unfold Py.hex.
  destruct (n <? 0) eqn:Hn, (m <? 0) eqn:Hm; try discriminate.
  all: intros H; apply (inj (String.append _)) in H;
       apply (inj (String.append _)) in H;
       apply hex_digits_inj, Unsigned.to_uint_inj in H.
  - apply Z.ltb_lt in Hn, Hm. lia.
  - apply Z.ltb_ge in Hn, Hm. lia.
Qed.

Lemma hex_eqb n m : String.eqb (Py.hex n) (Py.hex m) = (n =? m).
Proof.
  destruct (Z.eqb_spec n m) as [->|Hne]; [apply String.eqb_refl|].
  apply String.eqb_neq. intros H. apply Hne, hex_inj, H.
Qed.

(** X15. Distinct results have distinct codes: when the ignored codes are
    the codes of the integers [ns], the test of [internal_task_check] skips
    exactly the records whose result is one of [ns]. *)
Theorem ignored_codes_skip_exactly_their_results m ns :
  Py.in_list (result_code_hex_converter m) (map result_code_hex_converter ns)
  = true
  <-> In m ns.
Proof.
  unfold result_code_hex_converter. rewrite in_list_In, in_map_iff. split.
  - intros (n & Hn & Hin). apply hex_inj in Hn. subst n. exact Hin.
  - intros Hin. exists m. split; [reflexivity|exact Hin].
Qed.

(** X16. The description of a result depends on the integer alone: the
    twenty-one results of the lexicon get their sentence and every other
    integer, the negative ones included, gets "UNKNOWN error code!". *)
Theorem description_by_integer n :
  check_task_result_string (result_code_hex_converter n)
  = description_of_result n.
Proof.
  unfold check_task_result_string, result_code_hex_converter.
  change "0x0" with (Py.hex 0). change "0x1" with (Py.hex 1).
  change "0x2" with (Py.hex 2). change "0xa" with (Py.hex 10).
  change "0x103" with (Py.hex 259). change "0x41301" with (Py.hex 267009).
  change "0x41302" with (Py.hex 267010).
  change "0x41303" with (Py.hex 267011).
  change "0x41305" with (Py.hex 267013).
  change "0x41306" with (Py.hex 267014).
  change "0x41307" with (Py.hex 267015). change "0x420" with (Py.hex 1056).
  change "0x800710e0" with (Py.hex 2147946720).
  change "0x800700b7" with (Py.hex 2147942583).
  change "0x8007042b" with (Py.hex 2147943467).
  change "0x40010004" with (Py.hex 1073807364).
  change "0x80004003" with (Py.hex 2147500035).
  change "0x80004005" with (Py.hex 2147500037).
  change "0x80090030" with (Py.hex 2148073520).
  change "0x10000000" with (Py.hex 268435456).
  change "0x8000000a" with (Py.hex 2147483658).
  rewrite !hex_eqb.
  unfold description_of_result, lexicon_by_result. cbn [List.find fst snd].
  repeat match goal with
         | |- context [(n =? ?k)] => destruct (n =? k)
         end; reflexivity.
Qed.

(** ** Reading the decimal numeral of a result *)

Lemma literal_digits_uint b u :
  u <> Decimal.Nil \/ b = true ->
  Py.literal_digits b (DecimalString.NilEmpty.string_of_uint u)
  = Some (uint_digits u).
Proof.
  revert b. induction u; intros b Hb;
    cbn [DecimalString.NilEmpty.string_of_uint uint_digits Py.literal_digits].
  1: destruct Hb as [Hb| ->]; [congruence|reflexivity].
  all: change (Ascii.eqb _ "_") with false; cbv iota;
       unfold Py.digit_value; cbn [N_of_ascii N.leb N.compare andb];
       rewrite (IHu true) by (right; reflexivity); reflexivity.
Qed.

Lemma digits_value_acc u acc :
  fold_left (fun a d => 10 * a + d) (uint_digits u) (Z.pos acc)
  = Z.pos (Pos.of_uint_acc u acc).
Proof.
  revert acc. induction u; intros acc;
    cbn [uint_digits fold_left Pos.of_uint_acc]; [reflexivity|..].
  all: rewrite <- IHu; f_equal; lia.
Qed.

Lemma digits_value_uint u :
  Py.digits_value (uint_digits u) = Z.of_N (Pos.of_uint u).
Proof.
  unfold Py.digits_value.
  induction u; cbn [uint_digits fold_left Pos.of_uint Z.of_N];
    [reflexivity|..].
  1: exact IHu.
  all: rewrite <- digits_value_acc; reflexivity.
Qed.

Lemma uint_digits_length u :
  length (uint_digits u)
  = String.length (DecimalString.NilEmpty.string_of_uint u).
Proof.
  induction u;
    cbn [uint_digits DecimalString.NilEmpty.string_of_uint length
         String.length];
    congruence.
Qed.

Lemma unsigned_literal_uint u :
  u <> Decimal.Nil ->
  (String.length (DecimalString.NilEmpty.string_of_uint u) <= 4300)%nat ->
  Py.unsigned_literal (DecimalString.NilEmpty.string_of_uint u)
  = Some (Z.of_N (Pos.of_uint u)).
Proof.
  intros Hu Hlen. unfold Py.unsigned_literal.
  rewrite literal_digits_uint by (left; exact Hu).
  rewrite uint_digits_length.
  rewrite (proj2 (Nat.leb_le _ _)) by exact Hlen.
  rewrite digits_value_uint. reflexivity.
Qed.

Lemma int_rstrip_uint u :
  Py.int_rstrip (DecimalString.NilEmpty.string_of_uint u)
  = DecimalString.NilEmpty.string_of_uint u.
Proof.
  induction u;
    cbn [DecimalString.NilEmpty.string_of_uint Py.int_rstrip]; [reflexivity|..].
  all: rewrite IHu; reflexivity.
Qed.

Lemma to_uint_not_nil p : Pos.to_uint p <> Decimal.Nil.
Proof.
  intros H. pose proof (DecimalPos.Unsigned.of_to p) as Hp.
  rewrite H in Hp. discriminate.
Qed.

Lemma parse_int_uint u :
  u <> Decimal.Nil ->
  (String.length (DecimalString.NilEmpty.string_of_uint u) <= 4300)%nat ->
  Py.parse_int (DecimalString.NilEmpty.string_of_uint u)
  = Some (Z.of_N (Pos.of_uint u))
  /\ Py.parse_int (String "-" (DecimalString.NilEmpty.string_of_uint u))
     = Some (- Z.of_N (Pos.of_uint u)).
Proof.
  intros Hu Hlen. pose proof (unsigned_literal_uint u Hu Hlen) as Hlit.
  split.
  - unfold Py.parse_int.
    destruct u; [congruence|..];
      cbn [DecimalString.NilEmpty.string_of_uint Py.int_lstrip] in *;
      change (Py.is_int_space _) with false; cbv iota;
      cbn [Py.int_rstrip]; change (Py.is_int_space _) with false; cbn [andb];
      rewrite int_rstrip_uint; exact Hlit.
  - unfold Py.parse_int. cbn [Py.int_lstrip].
    change (Py.is_int_space "-") with false. cbv iota.
    cbn [Py.int_rstrip]. change (Py.is_int_space "-") with false. cbn [andb].
    rewrite int_rstrip_uint, Hlit. reflexivity.
Qed.

Lemma decimal_pos p :
  decimal (Z.pos p)
  = DecimalString.NilEmpty.string_of_uint (Pos.to_uint p).
Proof.
  unfold decimal. cbn [Z.to_int DecimalString.NilZero.string_of_int].
  pose proof (to_uint_not_nil p) as Hnil.
  destruct (Pos.to_uint p); [congruence|reflexivity..].
Qed.

Lemma decimal_neg p :
  decimal (Z.neg p)
  = String "-" (DecimalString.NilEmpty.string_of_uint (Pos.to_uint p)).
Proof.
  unfold decimal. cbn [Z.to_int DecimalString.NilZero.string_of_int].
  pose proof (to_uint_not_nil p) as Hnil.
  destruct (Pos.to_uint p); [congruence|reflexivity..].
Qed.

(** X17. [int] reads back the decimal numeral of every integer of at most
    4300 digits: the result code of a record is the integer that the remote
    host printed. *)
Theorem int_reads_decimal_numerals n :
  (String.length (decimal (Z.abs n)) <= 4300)%nat ->
  Py.int (decimal n) = Ok n.
Proof.
  unfold Py.int. destruct n as [|p|p]; [reflexivity|..];
    change (Z.abs _) with (Z.pos p); intros Hlen; rewrite decimal_pos in Hlen;
    destruct (parse_int_uint _ (to_uint_not_nil p) Hlen) as [Hpos Hneg];
    rewrite DecimalPos.Unsigned.of_to in Hpos, Hneg.
  - rewrite decimal_pos, Hpos. reflexivity.
  - rewrite decimal_neg, Hneg. reflexivity.
Qed.

Lemma int_reads_decimal_numerals_witness :
  Py.int (decimal (-2147024891)) = Ok (-2147024891).
Proof.
  apply (int_reads_decimal_numerals (-2147024891)).
  vm_compute. lia.
Defined.

(** ** [clean_string] *)

Example clean_string_ex :
  clean_string (String "009" " a  b" +:+ String "010" (String "013" "c "))
  = " a b c ".
Proof. reflexivity. Qed.

Lemma clean_string_from_single_spaced b s :
  single_spaced_from b (clean_string_from b s) = true.
Proof.
  revert b. induction s as [|c r IH]; intros b; [reflexivity|].
  cbn [clean_string_from]. destruct (Py.is_space c) eqn:Hc.
  - destruct b; [apply IH|].
    cbn [single_spaced_from]. change (Py.is_space " ") with true.
    cbv iota. rewrite IH. reflexivity.
  - cbn [single_spaced_from]. rewrite Hc. apply IH.
Qed.

Lemma clean_string_from_fixed b s :
  single_spaced_from b s = true -> clean_string_from b s = s.
Proof.
  revert b. induction s as [|c r IH]; intros b; [reflexivity|].
  cbn [single_spaced_from clean_string_from].
  destruct (Py.is_space c) eqn:Hc.
  - intros [[Heq Hb]%andb_prop Hr]%andb_prop.
    apply Ascii.eqb_eq in Heq. subst c.
    destruct b; [discriminate|]. rewrite (IH true Hr). reflexivity.
  - intros Hr. rewrite (IH false Hr). reflexivity.
Qed.

(** X18. [clean_string] returns a string in which the only white space is
    the single space between two other characters or at an end, it leaves
    such a string unchanged, and so cleaning twice is cleaning once. *)
Theorem clean_string_normalises s :
  single_spaced (clean_string s) = true
  /\ (single_spaced s = true -> clean_string s = s)
  /\ clean_string (clean_string s) = clean_string s.
Proof.
  split; [apply clean_string_from_single_spaced|].
  split; [apply clean_string_from_fixed|].
  apply clean_string_from_fixed, clean_string_from_single_spaced.
Qed.

Example words_ex : words "  ab c   d " = ["ab"; "c"; "d"].
Proof. reflexivity. Qed.

(** X19. [clean_string] changes white space only: the words of the result
    are the words of the argument, in the same order. *)
Theorem clean_string_keeps_words s :
  words (clean_string s) = words s.
Proof.
  unfold clean_string. generalize false.
  induction s as [|c r IH]; intros b; [reflexivity|].
  cbn [clean_string_from]. destruct (Py.is_space c) eqn:Hc.
  - transitivity (words (clean_string_from true r)).
    + destruct b; [reflexivity|]. cbn [words].
      change (Py.is_space " ") with true. reflexivity.
    + rewrite IH. cbn [words]. rewrite Hc. reflexivity.
  - cbn [words]. rewrite Hc. specialize (IH false).
    destruct r as [|c' r']; [reflexivity|].
    cbn [clean_string_from] in *. destruct (Py.is_space c') eqn:Hc'.
    + change (Py.is_space " ") with true. cbv iota. rewrite IH. reflexivity.
    + rewrite Hc', IH. reflexivity.
Qed.

(** ** Where the severity words can occur in a line *)

Lemma append_assoc a b c : (a +:+ b) +:+ c = a +:+ (b +:+ c).
Proof.
  induction a as [|x a IH]; [reflexivity|].
  change (String x ((a +:+ b) +:+ c) = String x (a +:+ (b +:+ c))).
  rewrite IH. reflexivity.
Qed.

Lemma prefix_sep w c a b :
  has_char c w = false ->
  String.prefix w (a +:+ String c b) = String.prefix w a.
Proof.
  revert a. induction w as [|w0 w IH]; intros a Hc.
  - rewrite !prefix_empty. reflexivity.
  - cbn [has_char] in Hc. apply orb_false_elim in Hc as [Hw0 Hw].
    destruct a as [|x a].
    + change ("" +:+ String c b) with (String c b). cbn [String.prefix].
      destruct (ascii_dec w0 c) as [->|_]; [|reflexivity].
      rewrite Ascii.eqb_refl in Hw0. discriminate.
    + change (String x a +:+ String c b) with (String x (a +:+ String c b)).
      cbn [String.prefix]. destruct (ascii_dec w0 x); [apply IH, Hw|reflexivity].
Qed.

Lemma contains_empty w : Py.is_empty w = false -> Py.contains w "" = false.
Proof. destruct w; [discriminate|reflexivity]. Qed.

(** A word without the character [c] occurs in [a ++ c :: b] exactly when
    it occurs in [a] or in [b]. *)
Lemma contains_sep w c a b :
  Py.is_empty w = false ->
  has_char c w = false ->
  Py.contains w (a +:+ String c b) = Py.contains w a || Py.contains w b.
Proof.
  intros Hne Hc. induction a as [|x a IH].
  - rewrite (contains_empty w Hne).
    change ("" +:+ String c b) with (String c b). cbn [Py.contains orb].
    pose proof (prefix_sep w c "" b Hc) as Hp.
    change ("" +:+ String c b) with (String c b) in Hp. rewrite Hp.
    destruct w; [discriminate|reflexivity].
  - change (String x a +:+ String c b) with (String x (a +:+ String c b)).
    cbn [Py.contains]. rewrite IH.
    pose proof (prefix_sep w c (String x a) b Hc) as Hp.
    change (String x a +:+ String c b) with (String x (a +:+ String c b)) in Hp.
    rewrite Hp. destruct (String.prefix w (String x a)); reflexivity.
Qed.

Lemma contains_skip w c s :
  String.prefix (String c "") w = false ->
  Py.contains w (String c s) = Py.contains w s.
Proof.
  intros Hp. cbn [Py.contains].
  destruct w as [|w0 w]; [rewrite !prefix_empty; destruct s; reflexivity|].
  cbn [String.prefix] in *.
  destruct (ascii_dec c w0) as [->|Hne].
  - rewrite prefix_empty in Hp. discriminate.
  - destruct (ascii_dec w0 c) as [->|_]; [congruence|reflexivity].
Qed.

Lemma separable_parts w :
  separable w = true ->
  Py.is_empty w = false /\ has_char "'" w = false /\ has_char ":" w = false
  /\ has_char "." w = false /\ String.prefix " " w = false.
Proof.
  unfold separable. intros H.
  repeat (apply andb_prop in H as [H ?]).
  repeat split; apply negb_true_iff; assumption.
Qed.

Lemma missing_message_contains w name :
  separable w = true ->
  Py.contains w (missing_message name)
  = Py.contains w "WARNING - " || Py.contains w name
    || Py.contains w " task can not be found. Please check task name!".
Proof.
  intros (Hne & Hq & _ & _ & _)%separable_parts. unfold missing_message.
  change ("WARNING - '" +:+ ?x) with ("WARNING - " +:+ String "'" x).
  rewrite !(contains_sep w "'") by assumption. apply orb_assoc.
Qed.

Lemma not_scheduled_contains w name location :
  separable w = true ->
  Py.contains w (not_scheduled_message name location)
  = Py.contains w "WARNING - " || Py.contains w name
    || Py.contains w " is not scheduled or no trigger. Task location"
    || Py.contains w location.
Proof.
  intros (Hne & Hq & Hc & Hd & Hs)%separable_parts.
  unfold not_scheduled_message.
  change ("WARNING - '" +:+ ?x) with ("WARNING - " +:+ String "'" x).
  change ("' is not scheduled or no trigger. Task location: " +:+ ?x)
    with (String "'" (" is not scheduled or no trigger. Task location"
                      +:+ String ":" (String " " x))).
  rewrite !(contains_sep w "'"), (contains_sep w ":") by assumption.
  rewrite (contains_skip w " " (location +:+ ".")) by assumption.
  rewrite (contains_sep w ".") by assumption.
  rewrite (contains_empty w Hne). rewrite orb_false_r, !orb_assoc.
  reflexivity.
Qed.

Lemma output_message_contains w p name description location code :
  separable w = true ->
  Py.contains w (p +:+ output_message_of name description location code)
  = Py.contains w p || Py.contains w name
    || Py.contains w (description +:+ " Task location")
    || Py.contains w location || Py.contains w " Result code"
    || Py.contains w code.
Proof.
  intros (Hne & Hq & Hc & Hd & Hs)%separable_parts.
  unfold output_message_of.
  change ("'" +:+ ?x) with (String "'" x).
  change ("': " +:+ ?x) with (String "'" ("" +:+ String ":" (String " " x))).
  change (" Task location: " +:+ ?x)
    with (" Task location" +:+ String ":" (String " " x)).
  change (". Result code: " +:+ ?x)
    with (String "." (" Result code" +:+ String ":" (String " " x))).
  rewrite <- (append_assoc description).
  rewrite !(contains_sep w "'") by assumption.
  rewrite (contains_sep w ":" "") by assumption.
  rewrite (contains_skip w " " ((description +:+ " Task location") +:+ _))
    by assumption.
  rewrite (contains_sep w ":" (description +:+ " Task location"))
    by assumption.
  rewrite (contains_skip w " " (location +:+ _)) by assumption.
  rewrite (contains_sep w ".") by assumption.
  rewrite (contains_sep w ":") by assumption.
  rewrite (contains_skip w " " code) by assumption.
  rewrite (contains_empty w Hne). cbn [orb]. rewrite !orb_assoc.
  reflexivity.
Qed.

Lemma description_without_markers w h :
  w = "CRITICAL" \/ w = "WARNING" \/ w = "OK -" ->
  Py.contains w (check_task_result_string h +:+ " Task location") = false.
Proof.
  intros Hw. unfold check_task_result_string.
  repeat match goal with
         | |- context [if String.eqb h ?k then _ else _] =>
             destruct (String.eqb h k)
         end.
  all: destruct Hw as [->|[->| ->]]; vm_compute; reflexivity.
Qed.

Lemma contains_first_char w0 w s :
  Py.contains (String w0 w) s = true -> has_char w0 s = true.
Proof.
  induction s as [|c s IH]; [discriminate|].
  cbn [Py.contains String.prefix has_char].
  destruct (ascii_dec w0 c) as [->|_].
  - rewrite Ascii.eqb_refl. reflexivity.
  - intros H. rewrite (IH H). apply orb_true_r.
Qed.

Lemma has_char_upper c s :
  has_char c s = true ->
  ((65 <=? N_of_ascii c) && (N_of_ascii c <=? 90))%N = true ->
  has_upper s = true.
Proof.
  intros Hs Hc. induction s as [|c' s IH]; [discriminate|].
  cbn [has_char has_upper] in *.
  destruct (Ascii.eqb_spec c' c) as [->|_].
  - rewrite Hc. reflexivity.
  - rewrite (IH Hs). apply orb_true_r.
Qed.

Lemma hex_without_markers w n :
  w = "CRITICAL" \/ w = "WARNING" \/ w = "OK -" ->
  Py.contains w (Py.hex n) = false.
Proof.
  intros Hw. destruct (Py.contains w (Py.hex n)) eqn:Hc; [|reflexivity].
  pose proof (has_upper_hex n) as Hup.
  destruct Hw as [->|[->| ->]]; apply contains_first_char in Hc;
    apply has_char_upper in Hc; try reflexivity; congruence.
Qed.

Lemma marker_free_parts s :
  marker_free s = true ->
  Py.contains "CRITICAL" s = false /\ Py.contains "WARNING" s = false
  /\ Py.contains "OK -" s = false.
Proof.
  unfold marker_free. intros H. repeat (apply andb_prop in H as [H ?]).
  repeat split; apply negb_true_iff; assumption.
Qed.

Lemma missing_message_well_marked name :
  marker_free name = true -> well_marked (missing_message name).
Proof.
  intros (Hc & Hw & Ho)%marker_free_parts. unfold well_marked.
  rewrite !missing_message_contains by reflexivity. rewrite Hc, Hw, Ho.
  repeat split; reflexivity.
Qed.

Lemma not_scheduled_well_marked name location :
  marker_free name = true -> marker_free location = true ->
  well_marked (not_scheduled_message name location).
Proof.
  intros (Hc & Hw & Ho)%marker_free_parts (Hc' & Hw' & Ho')%marker_free_parts.
  unfold well_marked.
  rewrite !not_scheduled_contains by reflexivity.
  rewrite Hc, Hw, Ho, Hc', Hw', Ho'. repeat split; reflexivity.
Qed.

Lemma output_line_well_marked p name location h n :
  p = "WARNING - " \/ p = "OK - " ->
  marker_free name = true -> marker_free location = true ->
  well_marked
    (p +:+ output_message_of name (check_task_result_string h) location
             (Py.hex n)).
Proof.
  intros Hp (Hc & Hw & Ho)%marker_free_parts
    (Hc' & Hw' & Ho')%marker_free_parts.
  unfold well_marked.
  rewrite !output_message_contains by reflexivity.
  rewrite !description_without_markers, !hex_without_markers by auto.
  rewrite Hc, Hw, Ho, Hc', Hw', Ho'.
  destruct Hp as [->| ->]; repeat split; reflexivity.
Qed.

(** The lines of a record whose name and path are free of the three
    words. *)
Lemma task_lines_well_marked opts incl d ls :
  clean_record d = true ->
  task_lines opts incl d = Ok ls -> Forall well_marked ls.
Proof.
  intros Hclean. unfold clean_record, field_free in Hclean.
  unfold task_lines, check_one_task, internal_task_check.
  unfold_M. unfold Py.getitem, Py.int, result_code_hex_converter.
  cbn [include_taskname_list].
  repeat (match goal with
          | |- context [match ?x with _ => _ end] =>
              lazymatch x with
              | context [match _ with _ => _ end] => fail
              | _ => destruct x eqn:?
              end
          end; cbn [include_taskname_list result_list app negb];
          try discriminate).
  all: intros [= <-].
  all: repeat apply List.Forall_cons; try apply List.Forall_nil.
  all: repeat match goal with
              | H : _ !! _ = Some _ |- _ => rewrite H in Hclean; clear H
              end.
  all: apply andb_prop in Hclean as [Hn Hl].
  all: first [ apply output_line_well_marked; auto
             | apply not_scheduled_well_marked; assumption ].
Qed.

Lemma all_task_lines_well_marked opts incl tl ls :
  forallb clean_record tl = true ->
  all_task_lines opts incl tl = Ok ls -> Forall well_marked ls.
Proof.
  revert ls. induction tl as [|d tl IH]; intros ls; cbn [forallb].
  - intros _ [= <-]. constructor.
  - intros [Hd Htl]%andb_prop. rewrite all_task_lines_cons.
    destruct (task_lines opts incl d) as [l1|] eqn:H1; [|discriminate].
    destruct (all_task_lines opts incl tl) as [l2|]; [|discriminate].
    intros [= <-]. apply Forall_app. split.
    + eapply task_lines_well_marked; eassumption.
    + apply IH; [exact Htl|reflexivity].
Qed.

Lemma filter_ext_Forall {A} (f g : A -> bool) l :
  Forall (fun x => f x = g x) l -> List.filter f l = List.filter g l.
Proof.
  induction 1 as [|x l Hx _ IH]; [reflexivity|].
  cbn [List.filter]. rewrite Hx, IH. reflexivity.
Qed.

Lemma existsb_ext_Forall {A} (f g : A -> bool) l :
  Forall (fun x => f x = g x) l -> existsb f l = existsb g l.
Proof.
  induction 1 as [|x l Hx _ IH]; [reflexivity|].
  cbn [existsb]. rewrite Hx, IH. reflexivity.
Qed.

Lemma filter_none {A} (f : A -> bool) l :
  Forall (fun x => f x = false) l -> List.filter f l = [] /\ existsb f l = false.
Proof.
  induction 1 as [|x l Hx _ [IH1 IH2]]; [split; reflexivity|].
  cbn [List.filter existsb]. rewrite Hx, IH1, IH2. split; reflexivity.
Qed.

(** What [check_exitcodes] does with well-marked lines. *)
Lemma check_exitcodes_well_marked rl :
  Forall well_marked rl ->
  check_exitcodes rl
  = Exit (List.filter is_warning_line rl ++ List.filter is_ok_line rl)
         (if existsb is_warning_line rl then 1 else 0)
  /\ Permutation rl
       (List.filter is_warning_line rl ++ List.filter is_ok_line rl).
Proof.
  intros Hall.
  assert (Hc : Forall (fun x => Py.contains "CRITICAL" x = false) rl)
    by (eapply List.Forall_impl; [|exact Hall]; intros x H; apply H).
  assert (Hw : Forall (fun x => Py.contains "WARNING" x = is_warning_line x) rl)
    by (eapply List.Forall_impl; [|exact Hall]; intros x H; apply H).
  assert (Ho : Forall (fun x => Py.contains "OK -" x = is_ok_line x) rl)
    by (eapply List.Forall_impl; [|exact Hall]; intros x H; apply H).
  destruct (filter_none _ _ Hc) as [Hc1 Hc2].
  split.
  - unfold check_exitcodes. f_equal.
    + rewrite printed_lines_by_substring, Hc1.
      rewrite (filter_ext_Forall _ _ _ Hw), (filter_ext_Forall _ _ _ Ho).
      reflexivity.
    + unfold exit_status, any_contains.
      rewrite Hc2, (existsb_ext_Forall _ _ _ Hw). reflexivity.
  - clear Hc Hw Ho Hc1 Hc2.
    induction Hall as [|x l (_ & _ & _ & Hx) _ IH]; [constructor|].
    cbn [List.filter]. rewrite Hx.
    destruct (is_warning_line x); cbn [negb app].
    + constructor. exact IH.
    + apply Permutation_cons_app. exact IH.
Qed.

(** X20. When no included name, task name or task path contains the word
    CRITICAL, WARNING or "OK -", the report is faithful: the run prints
    every collected line exactly once, the WARNING lines first and then
    the OK lines, each group in the order of collection, and exits with
    status 1 if there is a WARNING line and with status 0 otherwise. *)
Theorem clean_names_give_faithful_report order opts perfdata tl rl :
  valid_order order ->
  parsed_tasks perfdata = Ok tl ->
  forallb clean_record tl = true ->
  forallb marker_free (map Py.strip (include_taskname opts)) = true ->
  run_result_list order opts perfdata = Ok rl ->
  main order opts perfdata
  = Exit (List.filter is_warning_line rl ++ List.filter is_ok_line rl)
         (if existsb is_warning_line rl then 1 else 0)
  /\ Permutation rl
       (List.filter is_warning_line rl ++ List.filter is_ok_line rl).
Proof.
  intros Ho Hparse Hclean Hincl Hrun.
  rewrite main_of_result_list, Hrun.
  apply check_exitcodes_well_marked.
  revert Hrun. rewrite run_result_list_run, Hparse. cbv zeta.
  destruct (task_names tl) as [names|]; [|discriminate].
  destruct (all_task_lines _ _ tl) as [ls|] eqn:Hls; [|discriminate].
  intros [= <-]. apply Forall_app. split.
  - apply List.Forall_forall. intros line (name & <- & Hin)%in_map_iff.
    apply missing_message_well_marked.
    apply (valid_order_In order _ names name Ho) in Hin as [Hin _].
    rewrite forallb_forall in Hincl. apply Hincl, Hin.
  - eapply all_task_lines_well_marked; eassumption.
Qed.

Lemma clean_names_give_faithful_report_witness :
  main elements (mkOptions ["Backup"; "Alpha"] [] [] false) two_blocks
  = Exit (List.filter is_warning_line
            ["WARNING - 'Alpha' task can not be found. Please check task name!";
             "OK - 'Backup': The task did run properly. Task location: \. Result code: 0x0";
             "WARNING - 'Backup': The task did not run properly. Task location: \. Result code: 0x1"]
          ++ List.filter is_ok_line
               ["WARNING - 'Alpha' task can not be found. Please check task name!";
                "OK - 'Backup': The task did run properly. Task location: \. Result code: 0x0";
                "WARNING - 'Backup': The task did not run properly. Task location: \. Result code: 0x1"])
         (if existsb is_warning_line
               ["WARNING - 'Alpha' task can not be found. Please check task name!";
                "OK - 'Backup': The task did run properly. Task location: \. Result code: 0x0";
                "WARNING - 'Backup': The task did not run properly. Task location: \. Result code: 0x1"]
          then 1 else 0)
  /\ Permutation
       ["WARNING - 'Alpha' task can not be found. Please check task name!";
        "OK - 'Backup': The task did run properly. Task location: \. Result code: 0x0";
        "WARNING - 'Backup': The task did not run properly. Task location: \. Result code: 0x1"]
       (List.filter is_warning_line
          ["WARNING - 'Alpha' task can not be found. Please check task name!";
           "OK - 'Backup': The task did run properly. Task location: \. Result code: 0x0";
           "WARNING - 'Backup': The task did not run properly. Task location: \. Result code: 0x1"]
        ++ List.filter is_ok_line
             ["WARNING - 'Alpha' task can not be found. Please check task name!";
              "OK - 'Backup': The task did run properly. Task location: \. Result code: 0x0";
              "WARNING - 'Backup': The task did not run properly. Task location: \. Result code: 0x1"]).
Proof.
  apply (clean_names_give_faithful_report elements
           (mkOptions ["Backup"; "Alpha"] [] [] false) two_blocks
           (match parsed_tasks two_blocks with Ok tl => tl | Raise _ => [] end)).
  - intros S. reflexivity.
  - vm_compute. reflexivity.
  - vm_compute. reflexivity.
  - vm_compute. reflexivity.
  - vm_compute. reflexivity.
Defined.

Lemma task_lines_without_critical opts incl d ls :
  critical_free_record d = true ->
  task_lines opts incl d = Ok ls ->
  Forall (fun line => Py.contains "CRITICAL" line = false) ls.
Proof.
  intros Hclean. unfold critical_free_record in Hclean.
  unfold task_lines, check_one_task, internal_task_check.
  unfold_M. unfold Py.getitem, Py.int, result_code_hex_converter.
  cbn [include_taskname_list].
  repeat (match goal with
          | |- context [match ?x with _ => _ end] =>
              lazymatch x with
              | context [match _ with _ => _ end] => fail
              | _ => destruct x eqn:?
              end
          end; cbn [include_taskname_list result_list app negb];
          try discriminate).
  all: intros [= <-].
  all: repeat apply List.Forall_cons; try apply List.Forall_nil.
  all: repeat match goal with
              | H : _ !! _ = Some _ |- _ => rewrite H in Hclean; clear H
              end.
  all: apply andb_prop in Hclean as [Hn%negb_true_iff Hl%negb_true_iff].
  all: first [ rewrite output_message_contains by reflexivity;
               rewrite description_without_markers, hex_without_markers
                 by auto;
               rewrite Hn, Hl; reflexivity
             | rewrite not_scheduled_contains by reflexivity;
               rewrite Hn, Hl; reflexivity ].
Qed.

Lemma all_task_lines_without_critical opts incl tl ls :
  forallb critical_free_record tl = true ->
  all_task_lines opts incl tl = Ok ls ->
  Forall (fun line => Py.contains "CRITICAL" line = false) ls.
Proof.
  revert ls. induction tl as [|d tl IH]; intros ls; cbn [forallb].
  - intros _ [= <-]. constructor.
  - intros [Hd Htl]%andb_prop. rewrite all_task_lines_cons.
    destruct (task_lines opts incl d) as [l1|] eqn:H1; [|discriminate].
    destruct (all_task_lines opts incl tl) as [l2|]; [|discriminate].
    intros [= <-]. apply Forall_app. split.
    + eapply task_lines_without_critical; eassumption.
    + apply IH; [exact Htl|reflexivity].
Qed.

(** X21. The status 2 needs the word CRITICAL in a name: when no included
    name, task name or task path contains CRITICAL, a run that ends
    normally exits with status 0 or 1. *)
Theorem exit_status_2_needs_CRITICAL order opts perfdata tl lines status :
  valid_order order ->
  parsed_tasks perfdata = Ok tl ->
  forallb critical_free_record tl = true ->
  forallb (fun name => negb (Py.contains "CRITICAL" name))
          (map Py.strip (include_taskname opts)) = true ->
  main order opts perfdata = Exit lines status ->
  status = 0 \/ status = 1.
Proof.
  intros Ho Hparse Hclean Hincl. rewrite main_run, Hparse. cbv zeta.
  destruct (task_names tl) as [names|]; [|discriminate].
  destruct (all_task_lines _ _ tl) as [ls|] eqn:Hls; [|discriminate].
  unfold check_exitcodes. intros [= _ <-].
  set (rl := _ ++ ls).
  assert (Hall : Forall (fun line => Py.contains "CRITICAL" line = false) rl).
  { apply Forall_app. split.
    - apply List.Forall_forall. intros line (name & <- & Hin)%in_map_iff.
      rewrite missing_message_contains by reflexivity.
      apply (valid_order_In order _ names name Ho) in Hin as [Hin _].
      rewrite forallb_forall in Hincl.
      apply Hincl, negb_true_iff in Hin. rewrite Hin. reflexivity.
    - eapply all_task_lines_without_critical; eassumption. }
  destruct (filter_none _ _ Hall) as [_ Hex].
  unfold exit_status, any_contains. rewrite Hex.
  destruct (existsb (Py.contains "WARNING") rl); [right|left]; reflexivity.
Qed.

Lemma exit_status_2_needs_CRITICAL_witness : 1 = 0 \/ 1 = 1.
Proof.
  apply (exit_status_2_needs_CRITICAL elements no_options failed_block
           [first_task failed_block]
           ["WARNING - 'Backup': The task did not run properly. Task location: \. Result code: 0x1"]
           1).
  - intros S. reflexivity.
  - vm_compute. reflexivity.
  - vm_compute. reflexivity.
  - reflexivity.
  - vm_compute. reflexivity.
Defined.

(** ** Records with a canonical last result *)

Lemma trigger_of_disabled d :
  String.eqb (trigger_of d) "False" = trigger_disabled d.
Proof.
  unfold trigger_of, trigger_disabled. destruct (d !! "Enabled"); reflexivity.
Qed.

Lemma self_eta self :
  mkSelf (include_taskname_list self) (result_list self) = self.
Proof. destruct self; reflexivity. Qed.

(** On a typed record that the loop selects, the body of the loop adds the
    lines of the specification's rule. *)
Lemma check_one_task_typed opts d task_name self :
  d !! "TaskName" = Some task_name ->
  selected opts (include_taskname_list self) task_name = true ->
  typed_record d = true ->
  check_one_task opts d self
  = Ok (tt, mkSelf (include_taskname_list self)
              (result_list self
               ++ spec_classify opts
                    (include_mode (include_taskname_list self)) d)).
Proof.
  intros Hname Hsel Htyped.
  rewrite (check_one_task_selected _ _ _ _ Hname Hsel).
  unfold typed_record, canonical_result, has_key in Htyped.
  unfold spec_classify. rewrite Hname in *.
  destruct (d !! "TaskPath") as [path|] eqn:Hpath; [|discriminate].
  destruct (d !! "NextRunTime") as [next|] eqn:Hnext; [|discriminate].
  destruct (d !! "LastTaskResult") as [raw|] eqn:Hraw; [|discriminate].
  destruct (Py.parse_int raw) as [n|] eqn:Hint; [|discriminate].
  cbn [andb] in Htyped. apply String.eqb_eq in Htyped.
  cbv zeta.
  destruct (Py.in_list (Py.hex n) (ignore_resultcode opts)) eqn:Hign.
  - rewrite (internal_task_check_ignored opts d task_name _ self
               path next raw n Hpath Hnext Hraw Hint Hign).
    rewrite app_nil_r, self_eta. reflexivity.
  - destruct (Z.eqb_spec n 0) as [->|Hn]; cbn [negb].
    + change (decimal 0) with "0" in Htyped. subst raw.
      rewrite (internal_task_check_zero_text opts d task_name _ self
                 path next Hpath Hnext Hraw Hign).
      rewrite trigger_of_disabled. reflexivity.
    + rewrite (internal_task_check_nonzero opts d task_name _ self
                 path next raw n Hpath Hnext Hraw Hint Hn Hign).
      reflexivity.
Qed.

Lemma selected_included opts included task_name :
  included <> [] ->
  selected opts included task_name = Py.in_list task_name included.
Proof. intros Hincl. destruct included; [contradiction|reflexivity]. Qed.

Lemma include_mode_included included :
  included <> [] -> include_mode included = true.
Proof. intros Hincl. destruct included; [contradiction|reflexivity]. Qed.

Lemma task_lines_evaluable opts included d :
  included <> [] ->
  evaluable included d = true ->
  task_lines opts included d
  = Ok (if named_in included d then spec_classify opts true d else []).
Proof.
  intros Hincl Hd. unfold evaluable, named_in, has_key in *.
  destruct (d !! "TaskName") as [task_name|] eqn:Hname; [|discriminate].
  cbn [andb] in Hd. unfold task_lines.
  destruct (Py.in_list task_name included) eqn:Hin; cbn [implb] in Hd.
  - rewrite (check_one_task_typed opts d task_name (mkSelf included []) Hname).
    + cbn [include_taskname_list result_list app].
      rewrite (include_mode_included included Hincl). reflexivity.
    + cbn [include_taskname_list].
      rewrite (selected_included opts included task_name Hincl). exact Hin.
    + exact Hd.
  - rewrite (check_one_task_skipped opts d task_name (mkSelf included []) Hname).
    + reflexivity.
    + cbn [include_taskname_list].
      rewrite (selected_included opts included task_name Hincl). exact Hin.
Qed.

Lemma all_task_lines_evaluable opts included tl :
  included <> [] ->
  forallb (evaluable included) tl = true ->
  (exists names, task_names tl = Some names)
  /\ all_task_lines opts included tl
     = Ok (flat_map (spec_classify opts true)
                    (List.filter (named_in included) tl)).
Proof.
  intros Hincl. unfold task_names.
  induction tl as [|d tl IH]; cbn [forallb].
  - intros _. split; [exists []; reflexivity|reflexivity].
  - intros [Hd Htl]%andb_prop. destruct (IH Htl) as [[names Hn] Hl].
    split.
    + unfold evaluable, has_key in Hd.
      destruct (d !! "TaskName") as [task_name|] eqn:Hname; [|discriminate].
      exists (task_name :: names). cbn. rewrite Hname. cbn. rewrite Hn.
      reflexivity.
    + rewrite all_task_lines_cons, (task_lines_evaluable _ _ _ Hincl Hd), Hl.
      cbn [List.filter].
      destruct (named_in included d); reflexivity.
Qed.

(** ** A last result of zero *)

(** C7. An evaluated record whose last result is the integer zero, printed
    as its decimal numeral, and whose code "0x0" is not ignored: if the
    schedule is enforced and the next run time is empty or the field
    Enabled reads False, the record adds the one WARNING line that names
    the task as not scheduled or without trigger; otherwise it adds one OK
    line with the summary when included names were given, and nothing when
    none were.  A record without the field Enabled counts as enabled. *)
Theorem zero_result_checks_schedule opts d self task_name task_location
    task_nextruntime n :
  d !! "TaskName" = Some task_name ->
  selected opts (include_taskname_list self) task_name = true ->
  d !! "TaskPath" = Some task_location ->
  d !! "NextRunTime" = Some task_nextruntime ->
  d !! "LastTaskResult" = Some (decimal n) ->
  n = 0 ->
  Py.in_list (result_code_hex_converter n) (ignore_resultcode opts) = false ->
  check_one_task opts d self
  = Ok (tt, mkSelf (include_taskname_list self)
              (result_list self
               ++ (if negb (ignore_nextruntime opts)
                      && (Py.is_empty task_nextruntime
                          || match d !! "Enabled" with
                             | Some v => String.eqb v "False"
                             | None => false
                             end)
                   then ["WARNING - '" +:+ task_name
                         +:+ "' is not scheduled or no trigger. Task location: "
                         +:+ task_location +:+ "."]
                   else if include_mode (include_taskname_list self)
                   then ["OK - '" +:+ task_name
                         +:+ "': The task did run properly. Task location: "
                         +:+ task_location +:+ ". Result code: 0x0"]
                   else []))).
Proof.
  intros Hname Hsel Hpath Hnext Hlast -> Hign.
  change (decimal 0) with "0" in Hlast.
  rewrite (check_one_task_selected _ _ _ _ Hname Hsel).
  rewrite (internal_task_check_zero_text opts d task_name _ self
             task_location task_nextruntime Hpath Hnext Hlast Hign).
  rewrite trigger_of_disabled. reflexivity.
Qed.

Lemma zero_result_checks_schedule_witness :
  check_one_task (mkOptions ["Backup"] [] [] false)
    (first_task succeeded_block) (mkSelf ["Backup"] [])
  = Ok (tt, mkSelf ["Backup"]
              ["OK - 'Backup': The task did run properly. Task location: \. Result code: 0x0"]).
Proof.
  apply (zero_result_checks_schedule (mkOptions ["Backup"] [] [] false)
           (first_task succeeded_block) (mkSelf ["Backup"] [])
           "Backup" "\" "2024-01-01" 0).
  - vm_compute. reflexivity.
  - reflexivity.
  - vm_compute. reflexivity.
  - vm_compute. reflexivity.
  - vm_compute. reflexivity.
  - reflexivity.
  - reflexivity.
Defined.

(** ** Included names without a record *)

(** C8. With included names given, records that all carry a name and
    included records that are typed, the run of [check_task_details] from
    an empty result list adds first one warning for each included name that
    no record carries, in the order in which the set of these names is
    enumerated, and then, record by record, the lines that the
    specification's rule gives for the records with an included name, an
    OK line for a success among them; the other records add nothing.  The
    warning for an included name without a record occurs exactly once in
    the result list, and there is none for an included name that a record
    carries. *)
Theorem missing_names_reported_once order opts tl included :
  valid_order order ->
  included <> [] ->
  forallb (evaluable included) tl = true ->
  exists names,
    task_names tl = Some names
    /\ check_task_details order opts tl (mkSelf included [])
       = Ok (tt, mkSelf included
                   (map missing_message
                        (order (list_to_set included ∖ list_to_set names))
                    ++ flat_map (spec_classify opts true)
                                (List.filter (named_in included) tl)))
    /\ (forall name,
          In name included -> ~ In name names ->
          count_occ string_dec
            (map missing_message
                 (order (list_to_set included ∖ list_to_set names))
             ++ flat_map (spec_classify opts true)
                         (List.filter (named_in included) tl))
            (missing_message name) = 1%nat)
    /\ (forall name,
          In name included -> In name names ->
          ~ In (missing_message name)
               (map missing_message
                    (order (list_to_set included ∖ list_to_set names))
                ++ flat_map (spec_classify opts true)
                            (List.filter (named_in included) tl))).
Proof.
  intros Ho Hincl Hev.
  destruct (all_task_lines_evaluable opts included tl Hincl Hev)
    as [[names Hnames] Hlines].
  pose proof (all_task_lines_no_bang _ _ _ _ Hlines) as Hall.
  rewrite List.Forall_forall in Hall.
  exists names. split; [exact Hnames|].
  split; [rewrite check_task_details_run, Hnames, Hlines; reflexivity|].
  split.
  - intros name Hin Hnot. rewrite count_occ_app.
    replace (count_occ string_dec
               (flat_map (spec_classify opts true)
                         (List.filter (named_in included) tl))
               (missing_message name)) with 0%nat.
    + rewrite Nat.add_0_r.
      apply (proj1 (NoDup_count_occ' string_dec _)).
      * apply NoDup_map_missing, valid_order_NoDup, Ho.
      * apply in_map, (valid_order_In order included names name Ho).
        split; assumption.
    + symmetry. apply count_occ_not_In. intros Hl.
      apply (Hall _ Hl), last_char_missing.
  - intros name Hin Hcarried [Hm|Hl]%in_app_or.
    + apply in_map_iff in Hm as (other & Heq & Hother).
      apply missing_message_inj in Heq. subst other.
      apply (valid_order_In order included names name Ho) in Hother.
      destruct Hother as [_ Hnot]. exact (Hnot Hcarried).
    + apply (Hall _ Hl), last_char_missing.
Qed.

Lemma missing_names_reported_once_witness :
  check_task_details elements no_options mixed_tasks
    (mkSelf ["Sync"; "Alpha"; "Backup"] [])
  = Ok (tt, mkSelf ["Sync"; "Alpha"; "Backup"]
              ["WARNING - 'Alpha' task can not be found. Please check task name!";
               "OK - 'Backup': The task did run properly. Task location: \. Result code: 0x0";
               "WARNING - 'Sync': The process terminated unexpectedly. Task location: \. Result code: 0x8007042b"]).
Proof.
  destruct (missing_names_reported_once elements no_options mixed_tasks
              ["Sync"; "Alpha"; "Backup"])
    as (names & Hnames & Hrun & _).
  - intros S. reflexivity.
  - discriminate.
  - vm_compute. reflexivity.
  - rewrite Hrun. vm_compute in Hnames. injection Hnames as <-.
    vm_compute. reflexivity.
Defined.
